(** * Predictive Maintenance API: record ingestion and storage

    A shallow embedding of [src/main.py]: the four FastAPI handlers
    ([predict], [generate_data], [get_data], [clear_data]) and the two storage
    back ends they branch on (the MongoDB collection and the JSON file
    [machine_data.json]), together with the prediction form of the dashboard
    ([src/app.py]) and the connection check of [src/mongodb_setup.py].

    Conventions of the model.
    - Python [int] is [Z]; a finite Python [float] is modelled by its exact
      rational value in [Q], and the three special floats are values of their
      own.  The one conversion of the code that loses precision, from a
      64-bit integer to a double, is written out.
    - A Python [dict] is an association list in insertion order, which is also
      the order [json.dump] writes it in.
    - The handlers run in a state-and-exception monad over [world]; an
      exception leaves the effects performed before it in place, as in Python.
    - The two random generators ([random] and [numpy.random]) are oracles:
      streams of raw draws fixed in the configuration, read through a cursor
      kept in the world. *)

From Stdlib Require Import ZArith QArith Qround Lqa String List Lia.
From stdpp Require Import base list strings pretty.
Import ListNotations.

Open Scope string_scope.
Open Scope list_scope.
Open Scope Z_scope.

(** ** Values and dictionaries *)

Set Warnings "-register-all".

(** A Python float: a finite number, or one of the three special values that
    the request validation lets through and [json] and bson both store. *)
Inductive nonfinite : Type := NaN | Infinity | NegInfinity.

Inductive pyfloat : Type :=
  | Finite (q : Q)
  | NonFinite (x : nonfinite).

Inductive value : Type :=
  | VInt (z : Z)
  | VFloat (q : Q)                        (* a finite float *)
  | VNonFinite (x : nonfinite)            (* nan, inf, -inf *)
  | VBool (b : bool)
  | VStr (s : string)
  | VOid (n : N)                          (* a bson ObjectId *)
  | VList (l : list value)
  | VDict (d : list (string * value)).

Definition dict : Type := list (string * value).

Definition keys (d : dict) : list string := map fst d.

Fixpoint dict_get (k : string) (d : dict) : option value :=
  match d with
  | [] => None
  | (k', v) :: d' => if String.eqb k k' then Some v else dict_get k d'
  end.

(** [d[k] = v]: overwrite in place when the key exists, append otherwise. *)
Fixpoint dict_set (k : string) (v : value) (d : dict) : dict :=
  match d with
  | [] => [(k, v)]
  | (k', v') :: d' =>
      if String.eqb k k' then (k, v) :: d' else (k', v') :: dict_set k v d'
  end.

Fixpoint dict_del (k : string) (d : dict) : dict :=
  match d with
  | [] => []
  | (k', v') :: d' =>
      if String.eqb k k' then dict_del k d' else (k', v') :: dict_del k d'
  end.

Definition float_value (x : pyfloat) : value :=
  match x with
  | Finite q => VFloat q
  | NonFinite s => VNonFinite s
  end.


(** ** The JSON file

    [json.dump] hands the document to the file object piece by piece.  The
    model keeps the pieces of the outermost array: the opening bracket, one
    piece per record, the closing bracket.  [json.load] accepts exactly the
    complete documents. *)

Inductive chunk : Type :=
  | COpen
  | CItem (d : dict)
  | CClose.

Definition json_dump (data_list : list dict) : list chunk :=
  COpen :: map CItem data_list ++ [CClose].

Fixpoint json_items (cs : list chunk) : option (list dict) :=
  match cs with
  | [CClose] => Some []
  | CItem d :: cs' =>
      match json_items cs' with
      | Some l => Some (d :: l)
      | None => None
      end
  | _ => None
  end.

Definition json_load (cs : list chunk) : option (list dict) :=
  match cs with
  | COpen :: cs' => json_items cs'
  | _ => None
  end.

(** ** World, configuration, monad *)

Record world : Type := World {
  data_file : option (list chunk);   (* machine_data.json; None: no such file *)
  collection : list dict;            (* the MongoDB collection, natural order *)
  next_oid : N;                      (* supply of fresh ObjectIds *)
  py_pos : nat;                      (* cursor into the [random] stream *)
  np_pos : nat                       (* cursor into the [numpy.random] stream *)
}.

Inductive exn : Type :=
  | JSONDecodeError
  | ModelError (msg : string)
  | OverflowError.                   (* bson: an int that needs more than 8 bytes *)

(** What [model] was bound to at start-up: the fallback class of the source, or
    whatever [model.pkl] unpickled to.  The pickle is not part of the
    repository, so it is a parameter: [predict_row row] stands for
    [int(model.predict(df)[0])] on the one-row frame [df], and may raise. *)
Inductive classifier : Type :=
  | DummyModel
  | Pickled (predict_row : dict -> exn + Z).

Record config : Type := Config {
  use_mongodb : bool;
  model : classifier;
  py_random : nat -> N;
  np_random : nat -> N;
  (* how many of the documents [docs] the server packs into the single batch
     it sends for a request of [k] documents: its choice, not the client's *)
  single_batch : nat -> list dict -> nat
}.

Definition M (A : Type) : Type := world -> (exn + A) * world.

Definition ret {A} (a : A) : M A := fun w => (inr a, w).

Definition raise {A} (e : exn) : M A := fun w => (inl e, w).

Definition bind {A B} (m : M A) (k : A -> M B) : M B :=
  fun w =>
    match m w with
    | (inl e, w') => (inl e, w')
    | (inr a, w') => k a w'
    end.

Declare Scope py_scope.
Delimit Scope py_scope with py.
Notation "'do' x <- m ; k" := (bind m (fun x => k))
  (at level 10, x name, m at level 100, k at level 200) : py_scope.
Notation "'do_' m ; k" := (bind m (fun _ => k))
  (at level 10, m at level 100, k at level 200) : py_scope.
Open Scope py_scope.

(** The answer of a handler: the JSON body of a 200 response, or the
    [HTTPException(status_code=500, detail=str(e))] of its [except] clause. *)
Inductive response : Type :=
  | OK (body : dict)
  | HTTPException (status_code : Z) (detail : exn).

(** [try: ... except Exception as e: raise HTTPException(500, str(e))]. *)
Definition try_except (m : M dict) : world -> response * world :=
  fun w =>
    match m w with
    | (inr body, w') => (OK body, w')
    | (inl e, w') => (HTTPException 500 e, w')
    end.

(** ** Numbers: [random] and [round] *)

(** [random.random()]: 53 random bits scaled into [0, 1). *)
Definition random53 (r : N) : Q := Z.of_N (r mod 2 ^ 53) # (2 ^ 53).

(** [round(x)]: to the nearest integer, ties to the even one. *)
Definition py_round (x : Q) : Z :=
  let f := Qfloor x in
  match (x - inject_Z f ?= 1 # 2)%Q with
  | Lt => f
  | Gt => f + 1
  | Eq => if Z.even f then f else f + 1
  end.

(** [round(x, ndigits)] for [ndigits >= 0]. *)
Definition py_round_nd (x : Q) (ndigits : nat) : Q :=
  (inject_Z (py_round (x * inject_Z (10 ^ Z.of_nat ndigits)))
   / inject_Z (10 ^ Z.of_nat ndigits))%Q.

(** [l[start:]] with Python's treatment of negative and oversized indices. *)
Definition slice_from {A} (start : Z) (l : list A) : list A :=
  let n := Z.of_nat (length l) in
  let i := if start <? 0 then Z.max 0 (n + start) else Z.min start n in
  drop (Z.to_nat i) l.

(** ** Pure updates of the world *)

Definition set_data_file (f : option (list chunk)) (w : world) : world :=
  World f (collection w) (next_oid w) (py_pos w) (np_pos w).

Definition set_collection (c : list dict) (w : world) : world :=
  World (data_file w) c (next_oid w) (py_pos w) (np_pos w).

(** [open(DATA_FILE, "w")] creates the file or truncates it to nothing. *)
Definition open_w (w : world) : world := set_data_file (Some []) w.

(** One [f.write(piece)] on the file opened for writing. *)
Definition fwrite (c : chunk) (w : world) : world :=
  match data_file w with
  | Some cs => set_data_file (Some (cs ++ [c])) w
  | None => w
  end.

(** [with open(DATA_FILE, "w") as f: json.dump(doc, f)] cut short after the
    first [n] pieces; [n] at least the number of pieces is the whole write. *)
Definition dump_upto (n : nat) (doc : list dict) (w : world) : world :=
  fold_left (fun w' c => fwrite c w') (take n (json_dump doc)) (open_w w).

Definition dump_file (doc : list dict) (w : world) : world :=
  dump_upto (length (json_dump doc)) doc w.

(** ** The handlers *)

Record MachineData : Type := {
  Type_ : Z;
  Air_temperature_K : pyfloat;
  Process_temperature_K : pyfloat;
  Rotational_speed_rpm : pyfloat;
  Torque_Nm : pyfloat;
  Tool_wear_min : pyfloat
}.

(** The double nearest to the integer [z], ties to the even mantissa; exact
    below [2^53] in magnitude.  Used for integers of at most 64 bits, which
    never overflow a double. *)
Definition float64_of_int (z : Z) : Z :=
  let a := Z.abs z in
  if a <? 2 ^ 53 then z
  else
    let e := Z.log2 a - 52 in
    let q := a / 2 ^ e in
    let r := a mod 2 ^ e in
    let half := 2 ^ (e - 1) in
    let q' := if (half <? r) || ((r =? half) && Z.odd q) then q + 1 else q in
    Z.sgn z * (q' * 2 ^ e).

(** The integers pandas holds in an [int64] or [uint64] column; any other
    integer makes the column an [object] column of Python ints. *)
Definition fits_64 (z : Z) : bool := (- 2 ^ 63 <=? z) && (z <? 2 ^ 64).

Definition int_cells_fit_64 (row : dict) : bool :=
  forallb (fun kv => match kv.2 with
                     | VInt z => fits_64 z
                     | _ => true
                     end) row.

(** [df.iloc[0].to_dict()]: a row that spans 64-bit integer columns and float
    columns is handed out as a [float64] Series, so its integer cells come
    back as the nearest doubles; a row with an [object] column is handed out
    as it is. *)
Definition iloc0_to_dict (row : dict) : dict :=
  if int_cells_fit_64 row
  then map (fun kv => match kv.2 with
                      | VInt z => (kv.1, VFloat (inject_Z (float64_of_int z)))
                      | _ => kv
                      end) row
  else row.

(** What bson can encode: an int of at most 8 bytes, and every other value a
    record holds. *)
Definition bson_int (z : Z) : bool := (- 2 ^ 63 <=? z) && (z <? 2 ^ 63).

Definition bson_encodable (document : dict) : bool :=
  forallb (fun kv => match kv.2 with
                     | VInt z => bson_int z
                     | _ => true
                     end) document.

Section Server.

Variable cfg : config.

(** *** File-based storage functions (fallback) *)

Definition save_data (data_list : list dict) : M () :=
  fun w => (inr (), dump_file data_list w).

Definition get_all_data : M (list dict) :=
  fun w =>
    let w1 := match data_file w with
              | None => dump_file [] w
              | Some _ => w
              end in
    match data_file w1 with
    | Some cs =>
        match json_load cs with
        | Some data => (inr data, w1)
        | None => (inl JSONDecodeError, w1)
        end
    | None => (inl JSONDecodeError, w1)
    end.

(** *** The MongoDB collection *)

(** [collection.insert_one(document)]: pymongo adds a fresh [_id] to a
    document that has none, encodes it, and stores it; the encoder raises on
    an int of more than 8 bytes, and then nothing is stored. *)
Definition insert_one (document : dict) : M () :=
  fun w =>
    let stored := match dict_get "_id" document with
                  | Some _ => document
                  | None => dict_set "_id" (VOid (next_oid w)) document
                  end in
    if bson_encodable stored
    then (inr (),
          World (data_file w) (collection w ++ [stored]) (N.succ (next_oid w))
                (py_pos w) (np_pos w))
    else (inl OverflowError,
          World (data_file w) (collection w) (N.succ (next_oid w))
                (py_pos w) (np_pos w)).

(** [list(collection.find({}, {"_id": 0}).limit(limit))]: the command carries
    [abs(limit)], which the encoder refuses beyond 8 bytes; a limit of zero is
    no limit; a positive limit yields the first [limit] documents; a negative
    limit yields one batch of at most [abs(limit)] documents, as many as the
    server packs into it. *)
Definition find_limit (limit : Z) : M (list dict) :=
  fun w =>
    let docs := map (dict_del "_id") (collection w) in
    if negb (bson_int (Z.abs limit)) then (inl OverflowError, w)
    else if limit =? 0 then (inr docs, w)
    else if limit <? 0
    then let k := Z.to_nat (Z.abs limit) in
         (inr (take (Nat.min k (single_batch cfg k docs)) docs), w)
    else (inr (take (Z.to_nat limit) docs), w).

(** [collection.delete_many({}).deleted_count]. *)
Definition delete_many : M Z :=
  fun w => (inr (Z.of_nat (length (collection w))), set_collection [] w).

(** *** Randomness and the classifier *)

Definition py_draw : M N :=
  fun w => (inr (py_random cfg (py_pos w)),
            World (data_file w) (collection w) (next_oid w) (S (py_pos w)) (np_pos w)).

Definition np_draw : M N :=
  fun w => (inr (np_random cfg (np_pos w)),
            World (data_file w) (collection w) (next_oid w) (py_pos w) (S (np_pos w))).

(** [random.choice(seq)] *)
Definition choice (seq : list Z) : M Z :=
  do r <- py_draw;
  ret (nth (N.to_nat (r mod N.of_nat (length seq))) seq 0).

(** [random.uniform(a, b)], that is [a + (b - a) * random()]. *)
Definition uniform (a b : Q) : M Q :=
  do r <- py_draw;
  ret (a + (b - a) * random53 r)%Q.

(** [int(model.predict(df)[0])] on a one-row frame.  The fallback model draws
    [np.random.choice([0, 1], size=1)]. *)
Definition model_predict (row : dict) : M Z :=
  match model cfg with
  | DummyModel => do r <- np_draw; ret (nth (N.to_nat (r mod 2)) [0; 1] 0)
  | Pickled predict_row =>
      match predict_row row with
      | inl e => raise e
      | inr label => ret label
      end
  end.

(** *** POST /predict *)

Definition predict (data : MachineData) : world -> response * world :=
  try_except (
    let df := [ ("Type", VInt (Type_ data));
                ("Air temperature [K]", float_value (Air_temperature_K data));
                ("Process temperature [K]", float_value (Process_temperature_K data));
                ("Rotational speed [rpm]", float_value (Rotational_speed_rpm data));
                ("Torque [Nm]", float_value (Torque_Nm data));
                ("Tool wear [min]", float_value (Tool_wear_min data)) ] in
    do prediction <- model_predict df;
    let record := iloc0_to_dict df in
    let record := dict_set "prediction" (VInt prediction) record in
    do_ (if use_mongodb cfg then insert_one record
         else do all_data <- get_all_data;
              save_data (all_data ++ [record]));
    ret [ ("prediction", VInt prediction);
          ("failure", VBool (negb (prediction =? 0))) ]).

(** *** POST /generate_data *)

(** One turn of the [for] loop, up to and including [data["prediction"] = ...]. *)
Definition generate_one : M dict :=
  do machine_type <- choice [0; 1; 2];
  do air <- uniform 295 304;
  let air_temp := py_round_nd air 1 in
  do process <- uniform 305 313;
  let process_temp := py_round_nd process 1 in
  do speed <- uniform 1000 2500;
  let rotational_speed := py_round speed in
  do tq <- uniform (7 # 2) 77;
  let torque := py_round_nd tq 2 in
  do wear <- uniform 0 253;
  let tool_wear := py_round wear in
  let data := [ ("Type", VInt machine_type);
                ("Air temperature [K]", VFloat air_temp);
                ("Process temperature [K]", VFloat process_temp);
                ("Rotational speed [rpm]", VInt rotational_speed);
                ("Torque [Nm]", VFloat torque);
                ("Tool wear [min]", VInt tool_wear) ] in
  do prediction <- model_predict data;
  ret (dict_set "prediction" (VInt prediction) data).

(** [for _ in range(n)], with [generated_data] threaded through. *)
Fixpoint generate_loop (n : nat) (generated_data : list dict) : M (list dict) :=
  match n with
  | O => ret generated_data
  | S n' =>
      do data <- generate_one;
      do generated_data' <-
        (if use_mongodb cfg
         then do_ insert_one data; ret generated_data
         else ret (generated_data ++ [data]));
      generate_loop n' generated_data'
  end.

Definition generate_data (count : Z) : world -> response * world :=
  try_except (
    do generated_data <- generate_loop (Z.to_nat count) [];
    do_ (if negb (use_mongodb cfg)
         then do all_data <- get_all_data;
              save_data (all_data ++ generated_data)
         else ret ());
    ret [ ("message", VStr ("Generated " +:+ pretty count +:+ " data points"));
          ("count", VInt count) ]).

(** *** GET /data *)

Definition get_data (limit : Z) : world -> response * world :=
  try_except (
    do data <-
      (if use_mongodb cfg then find_limit limit
       else do data <- get_all_data;
            ret (if Z.of_nat (length data) >? limit
                 then slice_from (- limit) data
                 else data));
    ret [ ("data", VList (map VDict data));
          ("count", VInt (Z.of_nat (length data))) ]).

(** *** DELETE /clear_data *)

Definition clear_data : world -> response * world :=
  try_except (
    do deleted_count <-
      (if use_mongodb cfg then delete_many
       else do all_data <- get_all_data;
            do_ save_data [];
            ret (Z.of_nat (length all_data)));
    ret [ ("message", VStr ("Deleted " +:+ pretty deleted_count +:+ " data points")) ]).

(** *** Start-up and the reachable worlds *)

(** The module-level [try]/[except]: with the file back end selected, an
    absent data file is created holding the empty array. *)
Definition startup (w : world) : world :=
  if use_mongodb cfg then w
  else match data_file w with
       | None => dump_file [] w
       | Some _ => w
       end.

Inductive request : Type :=
  | Predict (data : MachineData)
  | GenerateData (count : Z)
  | GetData (limit : Z)
  | ClearData.

Definition handle (r : request) : world -> response * world :=
  match r with
  | Predict data => predict data
  | GenerateData count => generate_data count
  | GetData limit => get_data limit
  | ClearData => clear_data
  end.

End Server.

(** A machine on which neither store has been written yet. *)
Definition fresh : world := World None [] 0 0 0.

(** The worlds the server can be in: started on a fresh machine, then any
    sequence of requests, failed ones included. *)
Inductive reachable (cfg : config) : world -> Prop :=
  | reachable_start : reachable cfg (startup cfg fresh)
  | reachable_step r w :
      reachable cfg w -> reachable cfg (handle cfg r w).2.

(** The records a reader of the active store sees, oldest first. *)
Definition store_records (cfg : config) (w : world) : list dict :=
  if use_mongodb cfg then map (dict_del "_id") (collection w)
  else match data_file w with
       | Some cs => default [] (json_load cs)
       | None => []
       end.

(** ** Predicates of the statements *)

(** The storage field names, in the order both code paths build a record. *)
Definition fields : list string :=
  [ "Type"; "Air temperature [K]"; "Process temperature [K]";
    "Rotational speed [rpm]"; "Torque [Nm]"; "Tool wear [min]"; "prediction" ].

(** Exactly the six input fields plus [prediction], each once. *)
Definition well_shaped (d : dict) : Prop := keys d = fields.

(** The classifier never raises. *)
Definition never_raises (m : classifier) : Prop :=
  match m with
  | DummyModel => True
  | Pickled predict_row => forall row, exists label, predict_row row = inr label
  end.

(** Every label the classifier returns is 0 or 1. *)
Definition binary (m : classifier) : Prop :=
  match m with
  | DummyModel => True
  | Pickled predict_row =>
      forall row label, predict_row row = inr label -> label = 0 \/ label = 1
  end.

(** A record as [generate_data] builds it, every field within the range the
    specification lists for it. *)
Definition in_ranges (d : dict) : Prop :=
  exists (machine_type : Z) (air_temp process_temp : Q) (rotational_speed : Z)
         (torque : Q) (tool_wear prediction : Z),
    d = [ ("Type", VInt machine_type);
          ("Air temperature [K]", VFloat air_temp);
          ("Process temperature [K]", VFloat process_temp);
          ("Rotational speed [rpm]", VInt rotational_speed);
          ("Torque [Nm]", VFloat torque);
          ("Tool wear [min]", VInt tool_wear);
          ("prediction", VInt prediction) ]
    /\ In machine_type [0; 1; 2]
    /\ (295 <= air_temp <= 304)%Q
    /\ (305 <= process_temp <= 313)%Q
    /\ 1000 <= rotational_speed <= 2500
    /\ (7 # 2 <= torque <= 77)%Q
    /\ 0 <= tool_wear <= 253.

Definition binary_label (d : dict) : Prop :=
  dict_get "prediction" d = Some (VInt 0) \/ dict_get "prediction" d = Some (VInt 1).

(** What [predict] stores for the machine type [z]: the nearest double when
    [z] has at most 64 bits, the integer itself otherwise. *)
Definition stored_type (z : Z) : value :=
  if fits_64 z then VFloat (inject_Z (float64_of_int z)) else VInt z.

(** The record [predict] stores for the observation [data] labelled [p]. *)
Definition stored_record (data : MachineData) (p : Z) : dict :=
  [ ("Type", stored_type (Type_ data));
    ("Air temperature [K]", float_value (Air_temperature_K data));
    ("Process temperature [K]", float_value (Process_temperature_K data));
    ("Rotational speed [rpm]", float_value (Rotational_speed_rpm data));
    ("Torque [Nm]", float_value (Torque_Nm data));
    ("Tool wear [min]", float_value (Tool_wear_min data));
    ("prediction", VInt p) ].

(** Every label the classifier returns fits the 8 bytes of a bson int. *)
Definition int64_labels (m : classifier) : Prop :=
  match m with
  | DummyModel => True
  | Pickled predict_row =>
      forall row label, predict_row row = inr label -> bson_int label = true
  end.

(** The active store can hold the machine type [z] as [predict] hands it on:
    the file holds any number, the collection no integer beyond 8 bytes. *)
Definition type_storable (cfg : config) (z : Z) : bool :=
  negb (use_mongodb cfg) || fits_64 z.

(** The limits the active back end accepts: any integer on the file, and on
    MongoDB those whose magnitude fits a bson int. *)
Definition limit_accepted (cfg : config) (limit : Z) : bool :=
  negb (use_mongodb cfg) || bson_int (Z.abs limit).

(** Both stores hold the same in [w'] as in [w]. *)
Definition same_stores (w w' : world) : Prop :=
  data_file w' = data_file w /\ collection w' = collection w.

(** With the file back end selected, the data file is a complete document. *)
Definition canonical (cfg : config) (w : world) : Prop :=
  use_mongodb cfg = false -> exists recs, data_file w = Some (json_dump recs).






(** The JSON bodies of the 200 responses. *)
Definition predict_body (p : Z) : dict :=
  [ ("prediction", VInt p); ("failure", VBool (negb (p =? 0))) ].

Definition generate_body (count : Z) : dict :=
  [ ("message", VStr ("Generated " +:+ pretty count +:+ " data points"));
    ("count", VInt count) ].

Definition clear_body (deleted_count : Z) : dict :=
  [ ("message", VStr ("Deleted " +:+ pretty deleted_count +:+ " data points")) ].

(** What holds of a generated record: the ranges, and a binary label when the
    classifier is binary. *)
Definition generated_ok (cfg : config) (d : dict) : Prop :=
  in_ranges d /\ (binary (model cfg) -> binary_label d).

(** ** Serving a sequence of requests *)

(** The requests [rs] handled one after the other: the answers, in order, and
    the world left behind. *)
Fixpoint serve (cfg : config) (rs : list request) (w : world) : list response * world :=
  match rs with
  | [] => ([], w)
  | r :: rs' =>
      let (res, w1) := handle cfg r w in
      let (out, w2) := serve cfg rs' w1 in
      (res :: out, w2)
  end.

(** ** The dashboard ([src/app.py]) and the set-up script ([src/mongodb_setup.py]) *)

(** The prediction form, on a 200 answer of [/predict]:
    [failure = "Yes" if prediction == 0 else "No"] and
    [color_class = "failure-1" if prediction == 1 else "failure-0"]. *)
Definition failure_text (prediction : Z) : string :=
  if prediction =? 0 then "Yes" else "No".

Definition color_class (prediction : Z) : string :=
  if prediction =? 1 then "failure-1" else "failure-0".

(** [collection.delete_one({"_id": ObjectId n})]: the first document carrying
    that id goes, the others stay. *)
Definition has_oid (n : N) (d : dict) : bool :=
  match dict_get "_id" d with
  | Some (VOid m) => N.eqb n m
  | _ => false
  end.

Fixpoint delete_one (n : N) (docs : list dict) : list dict :=
  match docs with
  | [] => []
  | d :: docs' => if has_oid n d then docs' else d :: delete_one n docs'
  end.

(** [check_mongodb_connection]: when the server answers, insert a test
    document, delete it again by the id it was given, and return [True]; when
    [client.server_info()] raises, return [False].  [now] is [time.time()]. *)
Definition check_mongodb_connection (server_up : bool) (now : Q) (w : world)
  : bool * world :=
  if server_up then
    let test_id := next_oid w in
    let w1 := (insert_one [ ("test", VStr "connection"); ("timestamp", VFloat now) ] w).2 in
    (true, set_collection (delete_one test_id (collection w1)) w1)
  else (false, w).

(** Every document of the collection carries an ObjectId below the next one
    to be handed out. *)
Definition ids_below (w : world) : Prop :=
  Forall (fun d => exists m, dict_get "_id" d = Some (VOid m) /\ (m < next_oid w)%N)
         (collection w).

(** ** Sample configurations and inputs *)

(** File back end, fallback classifier. *)
Definition file_cfg : config :=
  Config false DummyModel (fun n => N.of_nat n) (fun n => N.of_nat n) (fun k _ => k).

(** MongoDB back end, fallback classifier. *)
Definition mongo_cfg : config :=
  Config true DummyModel (fun n => N.of_nat n) (fun n => N.of_nat n) (fun k _ => k).

(** File back end, with an unpickled classifier that accepts machine type 0
    only; the draws make the second generated record one of type 1. *)
Definition picky_cfg : config :=
  Config false
    (Pickled (fun row =>
                match dict_get "Type" row with
                | Some (VInt 0) => inr 1
                | _ => inl (ModelError "unsupported machine type")
                end))
    (fun n => N.of_nat (n / 6)) (fun n => N.of_nat n) (fun k _ => k).

(** MongoDB back end, with the same classifier and draws as [picky_cfg]. *)
Definition picky_mongo_cfg : config :=
  Config true (model picky_cfg) (py_random picky_cfg) (np_random picky_cfg)
         (single_batch picky_cfg).

(** The observation of the scenario in the specification. *)
Definition sample : MachineData :=
  {| Type_ := 1; Air_temperature_K := Finite 298; Process_temperature_K := Finite 308;
     Rotational_speed_rpm := Finite 1500; Torque_Nm := Finite 40;
     Tool_wear_min := Finite 100 |}.



Definition rec_a : dict :=
  [ ("Type", VInt 0); ("Air temperature [K]", VFloat 300);
    ("Process temperature [K]", VFloat 310); ("Rotational speed [rpm]", VInt 1400);
    ("Torque [Nm]", VFloat 40); ("Tool wear [min]", VInt 10); ("prediction", VInt 0) ].

Definition rec_b : dict :=
  [ ("Type", VInt 2); ("Air temperature [K]", VFloat 301);
    ("Process temperature [K]", VFloat 311); ("Rotational speed [rpm]", VInt 1600);
    ("Torque [Nm]", VFloat 45); ("Tool wear [min]", VInt 200); ("prediction", VInt 1) ].

(** A file-backed world whose data file holds [rec_a] and [rec_b]. *)
Definition two_records : world := World (Some (json_dump [rec_a; rec_b])) [] 0 0 0.

(** A file-backed world whose data file is the torn document a write of
    [rec_a] and more leaves when it stops after two pieces. *)
Definition torn_file : world := World (Some [COpen; CItem rec_a]) [] 0 0 0.

(** A world in which the data file has been removed under the running server. *)
Definition no_file : world := World None [] 0 0 0.

(** * Properties *)

(** ** The JSON file: what a write leaves behind *)

Lemma json_items_map (l : list dict) : json_items (map CItem l ++ [CClose]) = Some l.
Proof.
  induction l as [|d l IH]; [reflexivity|].
  cbn [map app json_items]. now rewrite IH.
Qed.

Lemma json_load_dump (l : list dict) : json_load (json_dump l) = Some l.
Proof. apply json_items_map. Qed.

Lemma json_dump_inj (l1 l2 : list dict) : json_dump l1 = json_dump l2 -> l1 = l2.
Proof.
  intros H. assert (E : json_load (json_dump l1) = json_load (json_dump l2)) by now rewrite H.
  rewrite !json_load_dump in E. congruence.
Qed.

Lemma fold_fwrite (cs acc : list chunk) (w : world) :
  fold_left (fun w' c => fwrite c w') cs (set_data_file (Some acc) w)
  = set_data_file (Some (acc ++ cs)) w.
Proof.
  revert acc. induction cs as [|c cs IH]; intros acc; cbn [fold_left].
  - now rewrite app_nil_r.
  - unfold fwrite at 2. cbn [data_file set_data_file].
    change (set_data_file (Some (acc ++ [c])) (set_data_file (Some acc) w))
      with (set_data_file (Some (acc ++ [c])) w).
    rewrite IH. now rewrite <- app_assoc.
Qed.

Lemma dump_upto_eq (n : nat) (doc : list dict) (w : world) :
  dump_upto n doc w = set_data_file (Some (take n (json_dump doc))) w.
Proof. unfold dump_upto, open_w. now rewrite fold_fwrite. Qed.

Lemma dump_file_eq (doc : list dict) (w : world) :
  dump_file doc w = set_data_file (Some (json_dump doc)) w.
Proof. unfold dump_file. rewrite dump_upto_eq. now rewrite firstn_all. Qed.

Lemma set_data_file_same (w : world) (cs : list chunk) :
  data_file w = Some cs -> set_data_file (Some cs) w = w.
Proof. destruct w; cbn. intros ->. reflexivity. Qed.

Lemma get_all_data_ok (recs : list dict) (w : world) :
  data_file w = Some (json_dump recs) -> get_all_data w = (inr recs, w).
Proof. intros H. unfold get_all_data. rewrite H. cbn [data_file]. rewrite H, json_load_dump. reflexivity. Qed.

Lemma save_data_eq (data_list : list dict) (w : world) :
  save_data data_list w = (inr (), set_data_file (Some (json_dump data_list)) w).
Proof. unfold save_data. now rewrite dump_file_eq. Qed.

(** ** Python slices *)

Lemma slice_from_tail {A} (l : list A) (limit : Z) :
  1 <= limit -> Z.of_nat (length l) > limit ->
  slice_from (- limit) l = drop (length l - Z.to_nat limit) l.
Proof.
  intros H1 H2. unfold slice_from.
  destruct (Z.ltb_spec (- limit) 0) as [_|]; [|lia].
  f_equal. lia.
Qed.

Lemma slice_from_zero {A} (l : list A) : slice_from (- 0) l = l.
Proof. unfold slice_from. cbn. rewrite Z.min_l by lia. reflexivity. Qed.

(** ** GET /data on the file back end *)

Lemma get_data_file (cfg : config) (w : world) (recs : list dict) (limit : Z) :
  use_mongodb cfg = false ->
  data_file w = Some (json_dump recs) ->
  get_data cfg limit w =
    (let data := if Z.of_nat (length recs) >? limit
                 then slice_from (- limit) recs else recs in
     OK [ ("data", VList (map VDict data));
          ("count", VInt (Z.of_nat (length data))) ], w).
Proof.
  intros Hcfg Hfile. unfold get_data, try_except, bind. rewrite Hcfg.
  rewrite (get_all_data_ok recs w Hfile). reflexivity.
Qed.

(** C6 (as amended): on the file back end, for every store contents and every
    limit of at least one, [get_data] answers with the last [limit] records in
    insertion order, the whole store when it holds at most [limit] records; so
    it answers with at most [limit] records, taken from the tail.  The store
    is not modified. *)
Theorem get_data_file_tail (cfg : config) (w : world) (recs : list dict) (limit : Z) :
  use_mongodb cfg = false ->
  data_file w = Some (json_dump recs) ->
  1 <= limit ->
  let data := drop (length recs - Z.to_nat limit) recs in
  get_data cfg limit w =
    (OK [ ("data", VList (map VDict data));
          ("count", VInt (Z.of_nat (length data))) ], w)
  /\ Z.of_nat (length data) = Z.min limit (Z.of_nat (length recs))
  /\ (Z.of_nat (length recs) <= limit -> data = recs).
Proof.
  intros Hcfg Hfile Hlim data. subst data.
  rewrite (get_data_file cfg w recs limit Hcfg Hfile). cbv zeta.
  destruct (Z.gtb_spec (Z.of_nat (length recs)) limit) as [Hgt|Hle].
  - rewrite slice_from_tail by lia.
    split; [reflexivity|]. split; [|lia].
    rewrite length_drop. lia.
  - replace (length recs - Z.to_nat limit)%nat with 0%nat by lia.
    rewrite drop_0. split; [reflexivity|]. split; [lia|reflexivity].
Qed.

Lemma get_data_file_tail_witness :
  get_data file_cfg 1 two_records =
    (OK [ ("data", VList [VDict rec_b]); ("count", VInt 1) ], two_records).
Proof.
  apply (get_data_file_tail file_cfg two_records [rec_a; rec_b] 1);
    [reflexivity | reflexivity | lia].
Defined.

(** C6, the claim as stated fails at limit 0: the file holds two records and
    [get_data 0] answers with both, which is more than zero records. *)
Lemma get_data_limit_zero_exceeds :
  exists data : list dict,
    (get_data file_cfg 0 two_records).1 =
      OK [ ("data", VList (map VDict data));
           ("count", VInt (Z.of_nat (length data))) ]
    /\ data = [rec_a; rec_b]
    /\ ~ (Z.of_nat (length data) <= 0).
Proof.
  exists [rec_a; rec_b]. split; [reflexivity|]. split; [reflexivity|].
  change (Z.of_nat (length [rec_a; rec_b])) with 2. lia.
Qed.

(** C9: on the file back end, [get_data] with limit 0 answers with every
    record of the store, so with more than [limit] records when the store is
    not empty; with a limit of at least one it answers with at most [limit]
    records. *)
Theorem get_data_limit_zero_all (cfg : config) (w : world) (recs : list dict) :
  use_mongodb cfg = false ->
  data_file w = Some (json_dump recs) ->
  get_data cfg 0 w =
    (OK [ ("data", VList (map VDict recs));
          ("count", VInt (Z.of_nat (length recs))) ], w)
  /\ (recs <> [] -> ~ (Z.of_nat (length recs) <= 0))
  /\ (forall limit, 1 <= limit ->
        exists data : list dict,
          get_data cfg limit w =
            (OK [ ("data", VList (map VDict data));
                  ("count", VInt (Z.of_nat (length data))) ], w)
          /\ Z.of_nat (length data) <= limit).
Proof.
  intros Hcfg Hfile. split; [|split].
  - rewrite (get_data_file cfg w recs 0 Hcfg Hfile). cbv zeta.
    destruct (Z.of_nat (length recs) >? 0); [|reflexivity].
    now rewrite slice_from_zero.
  - destruct recs; [congruence|]. cbn [length]. lia.
  - intros limit Hlim.
    pose proof (get_data_file_tail cfg w recs limit Hcfg Hfile Hlim) as H.
    cbv zeta in H. destruct H as (E & Hlen & _).
    exists (drop (length recs - Z.to_nat limit) recs). split; [exact E|]. lia.
Qed.

Lemma get_data_limit_zero_all_witness :
  get_data file_cfg 0 two_records =
    (OK [ ("data", VList [VDict rec_a; VDict rec_b]); ("count", VInt 2) ], two_records).
Proof.
  apply (get_data_limit_zero_all file_cfg two_records [rec_a; rec_b]); reflexivity.
Defined.

(** ** Sampling: [random], [uniform], [round] *)

Lemma random53_range (r : N) : (0 <= random53 r /\ random53 r < 1)%Q.
Proof.
  unfold random53.
  assert (H : (r mod 2 ^ 53 < 2 ^ 53)%N) by (apply N.mod_lt; discriminate).
  assert (H0 : 0 <= Z.of_N (r mod 2 ^ 53) < 2 ^ 53).
  { split; [apply N2Z.is_nonneg|].
    change (2 ^ 53) with (Z.of_N (2 ^ 53)). now apply N2Z.inj_lt. }
  set (k := Z.of_N (r mod 2 ^ 53)) in *. clearbody k.
  unfold Qle, Qlt. cbn [Qnum Qden].
  change (Z.pos (2 ^ 53)) with (2 ^ 53). lia.
Qed.

Lemma uniform_range (a b : Q) (r : N) :
  (a <= b -> a <= a + (b - a) * random53 r <= b)%Q.
Proof.
  intros Hab. destruct (random53_range r) as [H0 H1].
  assert (P1 : (0 <= (b - a) * random53 r)%Q) by (apply Qmult_le_0_compat; lra).
  assert (P2 : (0 <= (b - a) * (1 - random53 r))%Q) by (apply Qmult_le_0_compat; lra).
  split; lra.
Qed.

(** Rounding to an integer stays between integer bounds. *)
Lemma py_round_range (lo hi : Z) (x : Q) :
  (inject_Z lo <= x <= inject_Z hi)%Q -> lo <= py_round x <= hi.
Proof.
  intros [Hlo Hhi]. unfold py_round.
  pose proof (Qfloor_le x) as Hf.
  assert (L : lo <= Qfloor x).
  { rewrite <- (Qfloor_Z lo). now apply Qfloor_resp_le. }
  assert (U : Qfloor x <= hi).
  { rewrite <- (Qfloor_Z hi). now apply Qfloor_resp_le. }
  assert (U' : (inject_Z (Qfloor x) < x)%Q -> Qfloor x + 1 <= hi).
  { intros Hlt. assert (Hq : (inject_Z (Qfloor x) < inject_Z hi)%Q) by lra.
    rewrite <- Zlt_Qlt in Hq. lia. }
  destruct (x - inject_Z (Qfloor x) ?= 1 # 2)%Q eqn:E.
  - apply Qeq_alt in E. destruct (Z.even (Qfloor x)); [lia|].
    split; [lia|]. apply U'. lra.
  - lia.
  - apply Qgt_alt in E. split; [lia|]. apply U'. lra.
Qed.

(** Rounding to [ndigits] decimals stays between bounds that have at most
    [ndigits] decimals themselves. *)
Lemma py_round_nd_range (lo hi : Z) (ndigits : nat) (x : Q) :
  let s := inject_Z (10 ^ Z.of_nat ndigits) in
  (inject_Z lo / s <= x <= inject_Z hi / s)%Q ->
  (inject_Z lo / s <= py_round_nd x ndigits <= inject_Z hi / s)%Q.
Proof.
  intros s [Hlo Hhi]. unfold py_round_nd. fold s.
  assert (Hs : (0 < s)%Q).
  { unfold s. change 0%Q with (inject_Z 0). rewrite <- Zlt_Qlt. lia. }
  assert (Hx : (inject_Z lo <= x * s <= inject_Z hi)%Q).
  { split.
    - setoid_replace (inject_Z lo) with (inject_Z lo / s * s)%Q
        using relation Qeq by (field; lra).
      apply Qmult_le_compat_r; lra.
    - setoid_replace (inject_Z hi) with (inject_Z hi / s * s)%Q
        using relation Qeq by (field; lra).
      apply Qmult_le_compat_r; lra. }
  apply py_round_range in Hx. destruct Hx as [Hl Hh].
  split.
  - apply Qle_shift_div_l; [exact Hs|].
    setoid_replace (inject_Z lo / s * s)%Q with (inject_Z lo)
      using relation Qeq by (field; lra).
    now rewrite <- Zle_Qle.
  - apply Qle_shift_div_r; [exact Hs|].
    setoid_replace (inject_Z hi / s * s)%Q with (inject_Z hi)
      using relation Qeq by (field; lra).
    now rewrite <- Zle_Qle.
Qed.

Lemma round_uniform_int (a b : Z) (r : N) :
  a <= b ->
  a <= py_round (inject_Z a + (inject_Z b - inject_Z a) * random53 r) <= b.
Proof.
  intros Hab. apply py_round_range. apply uniform_range. now rewrite <- Zle_Qle.
Qed.

Lemma round_uniform_nd (lo hi : Z) (ndigits : nat) (a b : Q) (r : N) :
  (a == inject_Z lo / inject_Z (10 ^ Z.of_nat ndigits))%Q ->
  (b == inject_Z hi / inject_Z (10 ^ Z.of_nat ndigits))%Q ->
  (a <= b)%Q ->
  (a <= py_round_nd (a + (b - a) * random53 r) ndigits <= b)%Q.
Proof.
  intros Ea Eb Hab.
  pose proof (uniform_range a b r Hab) as Hu.
  pose proof (py_round_nd_range lo hi ndigits (a + (b - a) * random53 r)) as P.
  cbv zeta in P. rewrite <- Ea, <- Eb in P. exact (P Hu).
Qed.

(** ** The classifier and one turn of the generation loop *)

Lemma model_predict_stores (cfg : config) (row : dict) (w w' : world) res :
  model_predict cfg row w = (res, w') -> same_stores w w'.
Proof.
  unfold model_predict. destruct (model cfg) as [|f].
  - cbv [bind np_draw ret]. intros [= _ <-]. split; reflexivity.
  - destruct (f row); cbv [raise ret]; intros [= _ <-]; split; reflexivity.
Qed.

Lemma model_predict_total (cfg : config) (row : dict) (w : world) :
  never_raises (model cfg) -> exists label, (model_predict cfg row w).1 = inr label.
Proof.
  unfold model_predict, never_raises. destruct (model cfg) as [|f]; intros H.
  - eexists. reflexivity.
  - destruct (H row) as [label ->]. exists label. reflexivity.
Qed.

Lemma model_predict_binary (cfg : config) (row : dict) (w w' : world) (label : Z) :
  binary (model cfg) -> model_predict cfg row w = (inr label, w') ->
  label = 0 \/ label = 1.
Proof.
  unfold model_predict, binary. destruct (model cfg) as [|f]; intros H.
  - cbv [bind np_draw ret]. intros [= <- _].
    assert (Hlt : (np_random cfg (np_pos w) mod 2 < 2)%N) by (apply N.mod_lt; discriminate).
    destruct (np_random cfg (np_pos w) mod 2)%N as [|[p|p|]] eqn:E; try lia;
      [left | right]; reflexivity.
  - destruct (f row) as [e|p] eqn:E; cbv [raise ret]; intros [= <- _].
    now apply (H row).
Qed.

Lemma choice_3 (r : N) : In (nth (N.to_nat (r mod N.of_nat (length [0; 1; 2]))) [0; 1; 2] 0) [0; 1; 2].
Proof.
  cbn [length]. change (N.of_nat 3) with 3%N.
  assert (Hlt : (r mod 3 < 3)%N) by (apply N.mod_lt; discriminate).
  destruct (r mod 3)%N as [|[[p|p|]|[p|p|]|]]; try lia; cbn; auto.
Qed.

(** The six sampled fields, as [generate_one] computes them from the draws
    that start at cursor [i]. *)
Lemma generate_one_unfold (cfg : config) (w : world) :
  exists (row : dict) (w6 : world),
    generate_one cfg w =
      (do prediction <- model_predict cfg row;
       ret (dict_set "prediction" (VInt prediction) row)) w6
    /\ same_stores w w6
    /\ forall prediction,
         in_ranges (dict_set "prediction" (VInt prediction) row).
Proof.
  eexists _, _. split.
  { cbv beta iota zeta delta
      [generate_one choice uniform bind py_draw ret
       py_pos np_pos data_file collection next_oid].
    reflexivity. }
  split; [split; reflexivity|].
  intros prediction. cbv [in_ranges].
  eexists _, _, _, _, _, _, _. split; [reflexivity|].
  split; [apply choice_3|].
  split; [apply (round_uniform_nd 2950 3040 1); [reflexivity|reflexivity|discriminate]|].
  split; [apply (round_uniform_nd 3050 3130 1); [reflexivity|reflexivity|discriminate]|].
  split; [apply (round_uniform_int 1000 2500); lia|].
  split; [apply (round_uniform_nd 350 7700 2); [reflexivity|reflexivity|discriminate]|].
  apply (round_uniform_int 0 253); lia.
Qed.

Lemma same_stores_trans (w1 w2 w3 : world) :
  same_stores w1 w2 -> same_stores w2 w3 -> same_stores w1 w3.
Proof. unfold same_stores. intros [-> ->] [-> ->]. split; reflexivity. Qed.

Lemma dict_get_set (k : string) (v : value) (d : dict) :
  dict_get k (dict_set k v d) = Some v.
Proof.
  induction d as [|[k' v'] d IH]; cbn [dict_set dict_get].
  - now rewrite String.eqb_refl.
  - destruct (String.eqb k k') eqn:E; cbn [dict_get]; rewrite ?String.eqb_refl, ?E; auto.
Qed.

Lemma model_predict_int64 (cfg : config) (row : dict) (w w' : world) (label : Z) :
  int64_labels (model cfg) -> model_predict cfg row w = (inr label, w') ->
  bson_int label = true.
Proof.
  unfold model_predict, int64_labels. destruct (model cfg) as [|f]; intros H.
  - cbv [bind np_draw ret]. intros [= <- _].
    assert (Hlt : (np_random cfg (np_pos w) mod 2 < 2)%N) by (apply N.mod_lt; discriminate).
    destruct (np_random cfg (np_pos w) mod 2)%N as [|[p|p|]] eqn:E; try lia; reflexivity.
  - destruct (f row) as [e|p] eqn:E; cbv [raise ret]; intros [= <- _].
    now apply (H row).
Qed.

Lemma binary_int64_labels (m : classifier) : binary m -> int64_labels m.
Proof.
  destruct m as [|f]; cbn; [auto|]. intros H row label E.
  destruct (H row label E) as [-> | ->]; reflexivity.
Qed.

Lemma bson_int_range (z : Z) : - 2 ^ 63 <= z < 2 ^ 63 -> bson_int z = true.
Proof.
  intros [H1 H2]. unfold bson_int. apply andb_true_intro. split.
  - now apply Z.leb_le.
  - now apply Z.ltb_lt.
Qed.

(** A generated record is encodable as soon as its label is. *)
Lemma in_ranges_encodable (d : dict) (p : Z) :
  in_ranges d -> dict_get "prediction" d = Some (VInt p) -> bson_int p = true ->
  bson_encodable d = true.
Proof.
  intros (t & a & pt & sp & tq & tw & p' & -> & Ht & _ & _ & Hsp & _ & Htw) Hp Hb.
  cbn in Hp. injection Hp as ->.
  unfold bson_encodable. cbn [forallb snd].
  rewrite Hb, !andb_true_r.
  rewrite (bson_int_range sp), (bson_int_range tw) by lia.
  rewrite andb_true_r. apply bson_int_range.
  cbn in Ht. lia.
Qed.

Lemma dict_set_fresh (k : string) (v : value) (d : dict) :
  dict_get k d = None -> dict_set k v d = d ++ [(k, v)].
Proof.
  induction d as [|[k' v'] d IH]; cbn [dict_get dict_set app]; [reflexivity|].
  destruct (String.eqb k k'); [discriminate|]. intros H. now rewrite IH.
Qed.

Lemma dict_del_fresh (k : string) (d : dict) :
  dict_get k d = None -> dict_del k d = d.
Proof.
  induction d as [|[k' v'] d IH]; cbn [dict_get dict_del]; [reflexivity|].
  destruct (String.eqb k k'); [discriminate|]. intros H. now rewrite IH.
Qed.

Lemma dict_del_snoc (k : string) (v : value) (d : dict) :
  dict_get k d = None -> dict_del k (d ++ [(k, v)]) = d.
Proof.
  induction d as [|[k' v'] d IH]; cbn [dict_get dict_del app].
  - now rewrite String.eqb_refl.
  - destruct (String.eqb k k'); [discriminate|]. intros H. now rewrite IH.
Qed.

(** [insert_one] on a document that has no [_id] yet. *)
Lemma insert_one_fresh (d : dict) (w : world) :
  dict_get "_id" d = None ->
  insert_one d w =
    if bson_encodable d
    then (inr (),
          World (data_file w) (collection w ++ [d ++ [("_id", VOid (next_oid w))]])
                (N.succ (next_oid w)) (py_pos w) (np_pos w))
    else (inl OverflowError,
          World (data_file w) (collection w) (N.succ (next_oid w))
                (py_pos w) (np_pos w)).
Proof.
  intros Hd. unfold insert_one. rewrite Hd, (dict_set_fresh _ _ _ Hd).
  unfold bson_encodable. rewrite forallb_app. cbn [forallb snd].
  now rewrite !andb_true_r.
Qed.

Lemma in_ranges_no_id (d : dict) : in_ranges d -> dict_get "_id" d = None.
Proof. intros (? & ? & ? & ? & ? & ? & ? & -> & _). reflexivity. Qed.

Lemma generate_one_spec (cfg : config) (w w' : world) res :
  generate_one cfg w = (res, w') ->
  same_stores w w'
  /\ forall d, res = inr d -> in_ranges d /\ (binary (model cfg) -> binary_label d).
Proof.
  destruct (generate_one_unfold cfg w) as (row & w6 & -> & Hs & Hr).
  unfold bind. destruct (model_predict cfg row w6) as [[e|p] w7] eqn:E.
  - intros [= <- <-]. split; [|discriminate].
    eapply same_stores_trans; [exact Hs|]. eapply model_predict_stores; exact E.
  - cbv [ret]. intros [= <- <-]. split.
    + eapply same_stores_trans; [exact Hs|]. eapply model_predict_stores; exact E.
    + intros d [= <-]. split; [apply Hr|].
      intros Hb. unfold binary_label. rewrite dict_get_set.
      destruct (model_predict_binary cfg row w6 w7 p Hb E) as [-> | ->]; auto.
Qed.

Lemma generate_one_encodable (cfg : config) (w w' : world) (d : dict) :
  generate_one cfg w = (inr d, w') -> int64_labels (model cfg) ->
  bson_encodable d = true.
Proof.
  destruct (generate_one_unfold cfg w) as (row & w6 & -> & _ & Hr).
  unfold bind. destruct (model_predict cfg row w6) as [[e|p] w7] eqn:E; [discriminate|].
  cbv [ret]. intros [= <- _] Hl.
  apply (in_ranges_encodable _ p); [apply Hr | apply dict_get_set |].
  eapply model_predict_int64; eassumption.
Qed.

Lemma generate_one_total (cfg : config) (w : world) :
  never_raises (model cfg) -> exists d, (generate_one cfg w).1 = inr d.
Proof.
  intros Hn. destruct (generate_one_unfold cfg w) as (row & w6 & -> & _ & _).
  unfold bind. destruct (model_predict_total cfg row w6 Hn) as [label Hl].
  destruct (model_predict cfg row w6) as [[e|p] w7]; cbn in Hl; [discriminate|].
  eexists. reflexivity.
Qed.

Lemma in_ranges_well_shaped (d : dict) : in_ranges d -> well_shaped d.
Proof. intros (? & ? & ? & ? & ? & ? & ? & -> & _). reflexivity. Qed.

(** ** The generation loop, file back end: the stores are not touched and the
    batch is collected in [generated_data]. *)

Lemma generate_loop_file (cfg : config) (n : nat) :
  use_mongodb cfg = false ->
  forall (acc : list dict) (w w' : world) res,
    generate_loop cfg n acc w = (res, w') ->
    same_stores w w'
    /\ forall out, res = inr out ->
         exists new : list dict,
           out = acc ++ new /\ length new = n
           /\ Forall (fun d => in_ranges d /\ (binary (model cfg) -> binary_label d)) new.
Proof.
  intros Hcfg. induction n as [|n IH]; intros acc w w' res; cbn [generate_loop].
  - cbv [ret]. intros [= <- <-]. split; [split; reflexivity|].
    intros out [= <-]. exists []. rewrite app_nil_r. auto.
  - unfold bind at 1. destruct (generate_one cfg w) as [[e|d] w1] eqn:E1.
    + intros [= <- <-]. split; [|discriminate].
      apply (generate_one_spec cfg w w1 _ E1).
    + destruct (generate_one_spec cfg w w1 _ E1) as [Hs Hd].
      specialize (Hd d eq_refl).
      rewrite Hcfg. unfold bind at 1. cbv [ret]. intros E2.
      destruct (IH _ _ _ _ E2) as [Hs2 Hout]. split.
      * eapply same_stores_trans; eassumption.
      * intros out ->. destruct (Hout out eq_refl) as (new & -> & Hlen & Hall).
        exists (d :: new). rewrite <- app_assoc. cbn [app length].
        split; [reflexivity|]. split; [now rewrite Hlen|]. now constructor.
Qed.

(** The generation loop, MongoDB back end: every classified record is inserted
    at once, so a failure leaves the records inserted before it. *)
Lemma generate_loop_mongo (cfg : config) (n : nat) :
  use_mongodb cfg = true ->
  forall (acc : list dict) (w w' : world) res,
    generate_loop cfg n acc w = (res, w') ->
    data_file w' = data_file w
    /\ exists new : list dict,
         map (dict_del "_id") (collection w')
         = map (dict_del "_id") (collection w) ++ new
         /\ (length new <= n)%nat
         /\ Forall (fun d => in_ranges d /\ (binary (model cfg) -> binary_label d)) new
         /\ forall out, res = inr out -> out = acc /\ length new = n.
Proof.
  intros Hcfg. induction n as [|n IH]; intros acc w w' res; cbn [generate_loop].
  - cbv [ret]. intros [= <- <-]. split; [reflexivity|].
    exists []. rewrite app_nil_r.
    split; [reflexivity|]. split; [reflexivity|]. split; [constructor|].
    intros out [= <-]. split; reflexivity.
  - unfold bind at 1. destruct (generate_one cfg w) as [[e|d] w1] eqn:E1.
    + intros [= <- <-]. destruct (generate_one_spec cfg w w1 _ E1) as [[Hf Hc] _].
      split; [exact Hf|]. exists []. rewrite app_nil_r, Hc.
      split; [reflexivity|]. split; [cbn; lia|]. split; [constructor|].
      discriminate.
    + destruct (generate_one_spec cfg w w1 _ E1) as [[Hf Hc] Hd].
      specialize (Hd d eq_refl).
      pose proof (in_ranges_no_id d (proj1 Hd)) as Hid.
      rewrite Hcfg. unfold bind at 1 2. rewrite (insert_one_fresh d w1 Hid).
      destruct (bson_encodable d).
      * cbv [ret]. intros E2.
        destruct (IH _ _ _ _ E2) as (Hf2 & new & Hnew & Hlen & Hall & Hout).
        cbn [data_file collection] in Hf2, Hnew.
        split; [congruence|].
        exists (d :: new). split; [|split; [|split]].
        -- rewrite Hnew, map_app, Hc, <- app_assoc. f_equal. cbn [map app].
           now rewrite (dict_del_snoc _ _ _ Hid).
        -- cbn [length]. lia.
        -- now constructor.
        -- intros out ->. destruct (Hout out eq_refl) as [-> Hl].
           cbn [length]. rewrite Hl. split; reflexivity.
      * intros [= <- <-]. cbn [data_file collection].
        split; [exact Hf|]. exists []. rewrite app_nil_r, Hc.
        split; [reflexivity|]. split; [cbn; lia|]. split; [constructor|].
        discriminate.
Qed.

Lemma generate_loop_total (cfg : config) (n : nat) :
  never_raises (model cfg) ->
  (use_mongodb cfg = true -> int64_labels (model cfg)) ->
  forall (acc : list dict) (w : world),
    exists out, (generate_loop cfg n acc w).1 = inr out.
Proof.
  intros Hn Hl. induction n as [|n IH]; intros acc w; cbn [generate_loop].
  - eexists. reflexivity.
  - unfold bind at 1. destruct (generate_one_total cfg w Hn) as [d Hd].
    destruct (generate_one cfg w) as [[e|d'] w1] eqn:E1; cbn in Hd; [discriminate|].
    destruct (use_mongodb cfg) eqn:Hcfg; unfold bind at 1; cbv [ret]; [|apply IH].
    unfold bind at 1.
    destruct (generate_one_spec cfg w w1 _ E1) as [_ Hd'].
    rewrite (insert_one_fresh d' w1 (in_ranges_no_id d' (proj1 (Hd' d' eq_refl)))).
    rewrite (generate_one_encodable cfg w w1 d' E1 (Hl eq_refl)).
    apply IH.
Qed.

(** ** What each handler does to the active store *)

Lemma store_records_file (cfg : config) (w : world) (recs : list dict) :
  use_mongodb cfg = false -> data_file w = Some (json_dump recs) ->
  store_records cfg w = recs.
Proof. intros Hcfg Hf. unfold store_records. now rewrite Hcfg, Hf, json_load_dump. Qed.

Lemma store_records_mongo (cfg : config) (w : world) :
  use_mongodb cfg = true ->
  store_records cfg w = map (dict_del "_id") (collection w).
Proof. intros Hcfg. unfold store_records. now rewrite Hcfg. Qed.

Lemma canonical_same_file (cfg : config) (w w' : world) :
  data_file w' = data_file w -> canonical cfg w -> canonical cfg w'.
Proof. intros E H Hcfg. rewrite E. auto. Qed.

Lemma store_records_same (cfg : config) (w w' : world) :
  same_stores w w' -> store_records cfg w' = store_records cfg w.
Proof. intros [Hf Hc]. unfold store_records. now rewrite Hf, Hc. Qed.

(** The row [predict] takes out of its frame, labelled. *)
Lemma iloc0_stored (data : MachineData) (p : Z) :
  dict_set "prediction" (VInt p)
    (iloc0_to_dict
       [ ("Type", VInt (Type_ data));
         ("Air temperature [K]", float_value (Air_temperature_K data));
         ("Process temperature [K]", float_value (Process_temperature_K data));
         ("Rotational speed [rpm]", float_value (Rotational_speed_rpm data));
         ("Torque [Nm]", float_value (Torque_Nm data));
         ("Tool wear [min]", float_value (Tool_wear_min data)) ])
  = stored_record data p.
Proof.
  destruct data as [z a b c d e]. unfold stored_record, stored_type, iloc0_to_dict.
  cbn [Type_ Air_temperature_K Process_temperature_K Rotational_speed_rpm
       Torque_Nm Tool_wear_min].
  destruct a, b, c, d, e; cbn; destruct (fits_64 z); reflexivity.
Qed.

Lemma bson_int_fits_64 (z : Z) : bson_int z = true -> fits_64 z = true.
Proof.
  unfold bson_int, fits_64. intros H. apply andb_prop in H as [H1 H2].
  apply Z.leb_le in H1. apply Z.ltb_lt in H2.
  apply andb_true_intro. split; [now apply Z.leb_le | apply Z.ltb_lt; lia].
Qed.

(** bson takes the stored record exactly when the machine type has at most 64
    bits (it is then stored as a double) and the label at most 8 bytes. *)
Lemma stored_record_encodable (data : MachineData) (p : Z) :
  bson_encodable (stored_record data p) = fits_64 (Type_ data) && bson_int p.
Proof.
  destruct data as [z a b c d e]. unfold stored_record, stored_type, bson_encodable.
  cbn [Type_ Air_temperature_K Process_temperature_K Rotational_speed_rpm
       Torque_Nm Tool_wear_min].
  destruct a, b, c, d, e; cbn [forallb snd float_value]; rewrite ?andb_true_r;
    (destruct (fits_64 z) eqn:Hz; [reflexivity|]);
    (destruct (bson_int z) eqn:Hb; [apply bson_int_fits_64 in Hb; congruence|reflexivity]).
Qed.

Lemma stored_record_no_id (data : MachineData) (p : Z) :
  dict_get "_id" (stored_record data p) = None.
Proof. reflexivity. Qed.

Lemma predict_effect (cfg : config) (data : MachineData) (w : world) :
  canonical cfg w ->
  exists res w',
    predict cfg data w = (res, w')
    /\ canonical cfg w'
    /\ ((exists p, res = OK (predict_body p)
                   /\ store_records cfg w' = store_records cfg w ++ [stored_record data p]
                   /\ (binary (model cfg) -> p = 0 \/ p = 1))
        \/ ((exists e, res = HTTPException 500 e)
            /\ same_stores w w'
            /\ (never_raises (model cfg) ->
                (use_mongodb cfg = true -> int64_labels (model cfg)) ->
                type_storable cfg (Type_ data) = true -> False))).
Proof.
  intros Hcan. unfold predict, try_except.
  set (df := [("Type", VInt (Type_ data)); _; _; _; _; _]).
  unfold bind at 1.
  destruct (model_predict cfg df w) as [[e|p] w1] eqn:E;
    pose proof (model_predict_stores cfg df w w1 _ E) as Hs.
  - eexists _, _. split; [reflexivity|]. split.
    { eapply canonical_same_file; [apply Hs | exact Hcan]. }
    right. split; [eauto|]. split; [exact Hs|].
    intros Hn _ _. destruct (model_predict_total cfg df w Hn) as [l Hl].
    rewrite E in Hl. discriminate.
  - subst df. rewrite (iloc0_stored data p).
    destruct Hs as [Hf Hc].
    destruct (use_mongodb cfg) eqn:Hcfg.
    + unfold bind.
      rewrite (insert_one_fresh _ w1 (stored_record_no_id data p)).
      rewrite stored_record_encodable.
      destruct (fits_64 (Type_ data) && bson_int p) eqn:Henc.
      * eexists _, _. split; [reflexivity|].
        split; [intros H; rewrite Hcfg in H; discriminate|].
        left. exists p. split; [reflexivity|]. split.
        -- rewrite !store_records_mongo by exact Hcfg.
           cbn [collection]. rewrite map_app, Hc. cbn [map].
           now rewrite (dict_del_snoc _ _ _ (stored_record_no_id data p)).
        -- intros Hb. eapply model_predict_binary; eassumption.
      * eexists _, _. split; [reflexivity|].
        split; [intros H; rewrite Hcfg in H; discriminate|].
        right. split; [eauto|]. split; [split; [exact Hf|exact Hc]|].
        intros _ Hl Hst. unfold type_storable in Hst. rewrite Hcfg in Hst.
        cbn [negb orb] in Hst.
        rewrite Hst, (model_predict_int64 cfg _ w w1 p (Hl eq_refl) E) in Henc.
        discriminate.
    + destruct (Hcan Hcfg) as [recs Hrecs].
      assert (Hf1 : data_file w1 = Some (json_dump recs)) by congruence.
      unfold bind. rewrite (get_all_data_ok recs w1 Hf1), save_data_eq. cbv [ret].
      eexists _, _. split; [reflexivity|]. split.
      { intros _. eexists. reflexivity. }
      left. exists p. split; [reflexivity|]. split.
      * rewrite (store_records_file cfg _ (recs ++ [stored_record data p])) by auto.
        now rewrite (store_records_file cfg w recs).
      * intros Hb. eapply model_predict_binary; eassumption.
Qed.

Lemma generate_data_effect (cfg : config) (count : Z) (w : world) :
  canonical cfg w ->
  exists res w' (new : list dict),
    generate_data cfg count w = (res, w')
    /\ canonical cfg w'
    /\ store_records cfg w' = store_records cfg w ++ new
    /\ Forall (generated_ok cfg) new
    /\ ((res = OK (generate_body count) /\ length new = Z.to_nat count)
        \/ ((exists e, res = HTTPException 500 e)
            /\ (never_raises (model cfg) ->
                (use_mongodb cfg = true -> int64_labels (model cfg)) -> False))).
Proof.
  intros Hcan. unfold generate_data, try_except. unfold bind at 1.
  destruct (generate_loop cfg (Z.to_nat count) [] w) as [[e|out] w1] eqn:E.
  - assert (Hnr : never_raises (model cfg) ->
                  (use_mongodb cfg = true -> int64_labels (model cfg)) -> False).
    { intros Hn Hl.
      destruct (generate_loop_total cfg (Z.to_nat count) Hn Hl [] w) as [o Ho].
      rewrite E in Ho. discriminate. }
    destruct (use_mongodb cfg) eqn:Hcfg.
    + destruct (generate_loop_mongo cfg _ Hcfg _ _ _ _ E) as (Hf & new & Hnew & _ & Hall & _).
      exists (HTTPException 500 e), w1, new. split; [reflexivity|].
      split; [intros H; rewrite Hcfg in H; discriminate|].
      rewrite !store_records_mongo by exact Hcfg.
      split; [exact Hnew|]. split; [exact Hall|]. right. eauto.
    + destruct (generate_loop_file cfg _ Hcfg _ _ _ _ E) as (Hs & _).
      exists (HTTPException 500 e), w1, []. split; [reflexivity|].
      split; [eapply canonical_same_file; [apply Hs | exact Hcan]|].
      rewrite app_nil_r. split; [now apply store_records_same|].
      split; [constructor|]. right. eauto.
  - destruct (use_mongodb cfg) eqn:Hcfg; cbn [negb].
    + destruct (generate_loop_mongo cfg _ Hcfg _ _ _ _ E) as (Hf & new & Hnew & _ & Hall & Hout).
      destruct (Hout out eq_refl) as [_ Hlen].
      exists (OK (generate_body count)), w1, new. split; [reflexivity|].
      split; [intros H; rewrite Hcfg in H; discriminate|].
      rewrite !store_records_mongo by exact Hcfg.
      split; [exact Hnew|]. split; [exact Hall|]. left. auto.
    + destruct (generate_loop_file cfg _ Hcfg _ _ _ _ E) as ([Hf Hc] & Hout).
      destruct (Hout out eq_refl) as (new & -> & Hlen & Hall). cbn [app] in *.
      destruct (Hcan Hcfg) as [recs Hrecs].
      assert (Hf1 : data_file w1 = Some (json_dump recs)) by congruence.
      unfold bind. rewrite (get_all_data_ok recs w1 Hf1), save_data_eq. cbv [ret].
      eexists _, _, new. split; [reflexivity|].
      split; [intros _; eexists; reflexivity|].
      rewrite (store_records_file cfg _ (recs ++ new)) by auto.
      rewrite (store_records_file cfg w recs) by auto.
      split; [reflexivity|]. split; [exact Hall|]. left. auto.
Qed.

(** GET /data on the MongoDB back end. *)
Lemma get_data_mongo (cfg : config) (w : world) (limit : Z) :
  use_mongodb cfg = true ->
  get_data cfg limit w =
    (let docs := store_records cfg w in
     let k := Z.to_nat (Z.abs limit) in
     let data := if limit =? 0 then docs
                 else if limit <? 0 then take (Nat.min k (single_batch cfg k docs)) docs
                 else take (Z.to_nat limit) docs in
     if bson_int (Z.abs limit)
     then OK [ ("data", VList (map VDict data));
               ("count", VInt (Z.of_nat (length data))) ]
     else HTTPException 500 OverflowError, w).
Proof.
  intros Hcfg. unfold get_data, try_except, bind. rewrite Hcfg. cbv [find_limit ret].
  rewrite (store_records_mongo cfg w Hcfg). cbv zeta.
  destruct (bson_int (Z.abs limit)); cbn [negb]; [|reflexivity].
  destruct (limit =? 0); [reflexivity|]. destruct (limit <? 0); reflexivity.
Qed.

Lemma get_data_refused (cfg : config) (limit : Z) (w : world) :
  limit_accepted cfg limit = false ->
  get_data cfg limit w = (HTTPException 500 OverflowError, w).
Proof.
  unfold limit_accepted. destruct (use_mongodb cfg) eqn:Hcfg; cbn [negb orb];
    [|discriminate].
  intros H. rewrite (get_data_mongo cfg w limit Hcfg). cbv zeta. now rewrite H.
Qed.

Lemma get_data_effect (cfg : config) (limit : Z) (w : world) :
  canonical cfg w ->
  limit_accepted cfg limit = true ->
  exists (data : list dict) (k : nat),
    get_data cfg limit w =
      (OK [ ("data", VList (map VDict data));
            ("count", VInt (Z.of_nat (length data))) ], w)
    /\ (data = drop k (store_records cfg w) \/ data = take k (store_records cfg w)).
Proof.
  intros Hcan Hacc. destruct (use_mongodb cfg) eqn:Hcfg.
  - unfold limit_accepted in Hacc. rewrite Hcfg in Hacc. cbn [negb orb] in Hacc.
    rewrite (get_data_mongo cfg w limit Hcfg). cbv zeta. rewrite Hacc.
    destruct (limit =? 0).
    + eexists _, 0%nat. split; [reflexivity|]. left. now rewrite drop_0.
    + destruct (limit <? 0); eexists _, _; (split; [reflexivity|]); right; reflexivity.
  - destruct (Hcan Hcfg) as [recs Hrecs].
    rewrite (get_data_file cfg w recs limit Hcfg Hrecs). cbv zeta.
    rewrite (store_records_file cfg w recs Hcfg Hrecs).
    destruct (Z.of_nat (length recs) >? limit).
    + eexists _, _. split; [reflexivity|]. left. reflexivity.
    + eexists _, 0%nat. split; [reflexivity|]. left. now rewrite drop_0.
Qed.

(** Whatever the limit, [get_data] leaves the world as it is in a world whose
    data file is a complete document. *)
Lemma get_data_world (cfg : config) (limit : Z) (w : world) :
  canonical cfg w -> (get_data cfg limit w).2 = w.
Proof.
  intros Hcan. destruct (limit_accepted cfg limit) eqn:Hacc.
  - destruct (get_data_effect cfg limit w Hcan Hacc) as (data & k & -> & _). reflexivity.
  - now rewrite (get_data_refused cfg limit w Hacc).
Qed.

Lemma clear_data_effect (cfg : config) (w : world) :
  canonical cfg w ->
  exists w',
    clear_data cfg w = (OK (clear_body (Z.of_nat (length (store_records cfg w)))), w')
    /\ canonical cfg w'
    /\ store_records cfg w' = [].
Proof.
  intros Hcan. destruct (use_mongodb cfg) eqn:Hcfg.
  - unfold clear_data, try_except, bind. rewrite Hcfg. cbv [delete_many ret].
    eexists. rewrite (store_records_mongo cfg w Hcfg), length_map.
    split; [reflexivity|].
    split; [intros H; rewrite Hcfg in H; discriminate|].
    now rewrite store_records_mongo.
  - destruct (Hcan Hcfg) as [recs Hrecs].
    unfold clear_data, try_except, bind. rewrite Hcfg.
    rewrite (get_all_data_ok recs w Hrecs), save_data_eq. cbv [ret].
    eexists. rewrite (store_records_file cfg w recs Hcfg Hrecs).
    split; [reflexivity|]. split; [intros _; eexists; reflexivity|].
    now apply store_records_file.
Qed.

(** ** The invariant of the reachable worlds *)

Lemma startup_canonical (cfg : config) : canonical cfg (startup cfg fresh).
Proof.
  intros Hcfg. unfold startup. rewrite Hcfg. cbn [data_file fresh].
  rewrite dump_file_eq. exists []. reflexivity.
Qed.

Lemma startup_empty (cfg : config) : store_records cfg (startup cfg fresh) = [].
Proof.
  unfold store_records, startup. destruct (use_mongodb cfg); [reflexivity|].
  cbn [data_file fresh]. rewrite dump_file_eq. reflexivity.
Qed.

Lemma stored_record_shaped (data : MachineData) (p : Z) : well_shaped (stored_record data p).
Proof. reflexivity. Qed.

Lemma reachable_invariant (cfg : config) (w : world) :
  reachable cfg w -> canonical cfg w /\ Forall well_shaped (store_records cfg w).
Proof.
  induction 1 as [|r w Hw [Hcan Hall]].
  - split; [apply startup_canonical|]. rewrite startup_empty. constructor.
  - destruct r as [data|count|limit|]; cbn [handle].
    + destruct (predict_effect cfg data w Hcan) as (res & w' & -> & Hcan' & Hcase).
      split; [exact Hcan'|]. cbn [snd].
      destruct Hcase as [(p & _ & -> & _) | (_ & Hs & _)].
      * apply Forall_app. split; [exact Hall|].
        constructor; [apply stored_record_shaped | constructor].
      * now rewrite (store_records_same cfg w w' Hs).
    + destruct (generate_data_effect cfg count w Hcan)
        as (res & w' & new & -> & Hcan' & Hst & Hnew & _).
      split; [exact Hcan'|]. cbn [snd]. rewrite Hst. apply Forall_app. split; [exact Hall|].
      eapply Forall_impl; [exact Hnew|]. intros d [Hd _]. now apply in_ranges_well_shaped.
    + rewrite (get_data_world cfg limit w Hcan). split; assumption.
    + destruct (clear_data_effect cfg w Hcan) as (w' & -> & Hcan' & Hempty).
      split; [exact Hcan'|]. cbn [snd]. rewrite Hempty. constructor.
Qed.

(** ** POST /predict *)




Lemma limit_accepted_small (cfg : config) (limit : Z) :
  (use_mongodb cfg = true -> Z.abs limit < 2 ^ 63) ->
  limit_accepted cfg limit = true.
Proof.
  unfold limit_accepted. destruct (use_mongodb cfg); [|reflexivity].
  intros H. specialize (H eq_refl). cbn [negb orb]. apply bson_int_range. lia.
Qed.









(** ** GET /data: the shape of what is stored and fetched *)

(** C2: in every reachable world, under either back end, every stored record
    has exactly the six input fields plus [prediction] (so none was persisted
    without its label), and every answer [get_data] gives, for whatever
    limit, holds records of exactly that shape; it does answer for every
    limit on the file back end, and for every limit below [2^63] in magnitude
    on MongoDB. *)
Theorem fetch_records_shape (cfg : config) (w : world) (limit : Z) :
  reachable cfg w ->
  Forall (fun d => keys d = fields) (store_records cfg w)
  /\ (forall body w1,
        get_data cfg limit w = (OK body, w1) ->
        exists data : list dict,
          body = [ ("data", VList (map VDict data));
                   ("count", VInt (Z.of_nat (length data))) ]
          /\ w1 = w
          /\ Forall (fun d => keys d =
                       [ "Type"; "Air temperature [K]"; "Process temperature [K]";
                         "Rotational speed [rpm]"; "Torque [Nm]"; "Tool wear [min]";
                         "prediction" ]) data)
  /\ (use_mongodb cfg = false \/ Z.abs limit < 2 ^ 63 ->
      exists body, get_data cfg limit w = (OK body, w)).
Proof.
  intros Hreach. destruct (reachable_invariant cfg w Hreach) as [Hcan Hall].
  split; [exact Hall|].
  destruct (limit_accepted cfg limit) eqn:Hacc.
  - destruct (get_data_effect cfg limit w Hcan Hacc) as (data & k & E & Hdata).
    split.
    + intros body w1 E'. rewrite E in E'. injection E' as <- <-.
      exists data. split; [reflexivity|]. split; [reflexivity|].
      destruct Hdata as [-> | ->]; [now apply Forall_drop | now apply Forall_take].
    + intros _. eexists. exact E.
  - rewrite (get_data_refused cfg limit w Hacc). split; [discriminate|].
    intros H. exfalso.
    rewrite limit_accepted_small in Hacc; [discriminate|].
    intros Hcfg. destruct H as [H|H]; [congruence|exact H].
Qed.

Lemma fetch_records_shape_witness :
  let w := (handle mongo_cfg (Predict sample)
              (handle mongo_cfg (GenerateData 2) (startup mongo_cfg fresh)).2).2 in
  Forall (fun d => keys d = fields) (store_records mongo_cfg w)
  /\ exists data : list dict,
       get_data mongo_cfg 2 w =
         (OK [ ("data", VList (map VDict data));
               ("count", VInt (Z.of_nat (length data))) ], w)
       /\ Forall (fun d => keys d = fields) data.
Proof.
  intros w.
  destruct (fetch_records_shape mongo_cfg w 2
              (reachable_step mongo_cfg (Predict sample) _
                 (reachable_step mongo_cfg (GenerateData 2) _
                    (reachable_start mongo_cfg))))
    as (Hall & Hok & Hsucc).
  split; [exact Hall|].
  destruct (Hsucc ltac:(right; cbn; lia)) as (body & E).
  destruct (Hok body w E) as (data & -> & _ & Hdata).
  exists data. split; [exact E|exact Hdata].
Defined.

(** ** DELETE /clear_data *)

(** C3, the claim as stated fails: the body [clear_data] answers with has the
    one key [message], whose value is a string; it has no [count_deleted]
    field and no integer under any key. *)
Lemma clear_data_no_count_field :
  exists (body : dict) (w1 : world),
    clear_data file_cfg two_records = (OK body, w1)
    /\ body = [ ("message", VStr "Deleted 2 data points") ]
    /\ dict_get "count_deleted" body = None
    /\ (forall k n, dict_get k body <> Some (VInt n)).
Proof.
  exists [ ("message", VStr "Deleted 2 data points") ].
  eexists. split; [vm_compute; reflexivity|]. split; [reflexivity|].
  split; [reflexivity|].
  intros k n. cbn [dict_get]. destruct (String.eqb k "message"); discriminate.
Qed.

(** C3 (as amended): in every reachable world, under either back end,
    [clear_data] deletes all records and reports their number inside the
    message of its answer, "Deleted N data points"; called again at once it
    raises nothing, reports 0 and leaves the store empty. *)
Theorem clear_data_idempotent (cfg : config) (w : world) :
  reachable cfg w ->
  exists w1 w2 : world,
    clear_data cfg w =
      (OK [ ("message",
             VStr ("Deleted " +:+ pretty (Z.of_nat (length (store_records cfg w)))
                   +:+ " data points")) ], w1)
    /\ store_records cfg w1 = []
    /\ clear_data cfg w1 = (OK [ ("message", VStr "Deleted 0 data points") ], w2)
    /\ store_records cfg w2 = [].
Proof.
  intros Hreach. destruct (reachable_invariant cfg w Hreach) as [Hcan _].
  destruct (clear_data_effect cfg w Hcan) as (w1 & E1 & Hcan1 & Hempty1).
  destruct (clear_data_effect cfg w1 Hcan1) as (w2 & E2 & _ & Hempty2).
  rewrite Hempty1 in E2. exists w1, w2.
  split; [exact E1|]. split; [exact Hempty1|]. split; [exact E2|exact Hempty2].
Qed.

Lemma clear_data_idempotent_witness :
  let w := (handle mongo_cfg (Predict sample) (startup mongo_cfg fresh)).2 in
  exists w1 w2 : world,
    clear_data mongo_cfg w = (OK [ ("message", VStr "Deleted 1 data points") ], w1)
    /\ store_records mongo_cfg w1 = []
    /\ clear_data mongo_cfg w1 = (OK [ ("message", VStr "Deleted 0 data points") ], w2).
Proof.
  intros w.
  destruct (clear_data_idempotent mongo_cfg w
              (reachable_step mongo_cfg (Predict sample) _ (reachable_start mongo_cfg)))
    as (w1 & w2 & E1 & H1 & E2 & _).
  exists w1, w2. split; [exact E1|]. split; [exact H1|exact E2].
Defined.

(** ** POST /generate_data *)

Lemma generate_data_nonpositive (cfg : config) (count : Z) (w : world) :
  canonical cfg w -> count <= 0 ->
  generate_data cfg count w = (OK (generate_body count), w).
Proof.
  intros Hcan Hle. unfold generate_data, try_except.
  replace (Z.to_nat count) with 0%nat by lia. cbn [generate_loop].
  unfold bind at 1. cbv [ret].
  destruct (use_mongodb cfg) eqn:Hcfg; cbn [negb]; [reflexivity|].
  destruct (Hcan Hcfg) as [recs Hrecs].
  unfold bind. rewrite (get_all_data_ok recs w Hrecs), save_data_eq.
  rewrite app_nil_r, (set_data_file_same w _ Hrecs). reflexivity.
Qed.



(** C10: with a negative [count], [generate_data] on a reachable world raises
    nothing, leaves the world as it was, and answers with the negative count
    as given. *)
Theorem generate_data_negative (cfg : config) (w : world) (count : Z) :
  reachable cfg w -> count < 0 ->
  generate_data cfg count w =
    (OK [ ("message", VStr ("Generated " +:+ pretty count +:+ " data points"));
          ("count", VInt count) ], w).
Proof.
  intros Hreach Hneg. destruct (reachable_invariant cfg w Hreach) as [Hcan _].
  apply generate_data_nonpositive; [exact Hcan | lia].
Qed.

Lemma generate_data_negative_witness :
  let w := (handle file_cfg (Predict sample) (startup file_cfg fresh)).2 in
  generate_data file_cfg (-5) w =
    (OK [ ("message", VStr "Generated -5 data points"); ("count", VInt (-5)) ], w).
Proof.
  intros w.
  exact (generate_data_negative file_cfg w (-5)
           (reachable_step file_cfg (Predict sample) _ (reachable_start file_cfg))
           ltac:(lia)).
Defined.

(** C7: every record [generate_data] adds to the store, on a reachable world
    with a binary classifier, has its machine type in {0, 1, 2}, air
    temperature in [295, 304], process temperature in [305, 313], rotational
    speed in [1000, 2500], torque in [3.5, 77], tool wear in [0, 253], and an
    integer label that is 0 or 1; when the classifier never raises there are
    exactly [count] such records (none for a negative [count]). *)
Theorem generate_data_ranges (cfg : config) (w : world) (count : Z) :
  reachable cfg w -> binary (model cfg) ->
  exists (res : response) (w1 : world) (new : list dict),
    generate_data cfg count w = (res, w1)
    /\ store_records cfg w1 = store_records cfg w ++ new
    /\ Forall (fun d => in_ranges d /\ binary_label d) new
    /\ (never_raises (model cfg) ->
          res = OK (generate_body count) /\ length new = Z.to_nat count).
Proof.
  intros Hreach Hb. destruct (reachable_invariant cfg w Hreach) as [Hcan _].
  destruct (generate_data_effect cfg count w Hcan)
    as (res & w1 & new & E & _ & Hst & Hall & Hcase).
  exists res, w1, new. split; [exact E|]. split; [exact Hst|]. split.
  - eapply Forall_impl; [exact Hall|]. intros d [Hr Hl]. split; [exact Hr|auto].
  - intros Hn. destruct Hcase as [H | [_ Hnr]]; [exact H|].
    exfalso. apply (Hnr Hn). intros _. now apply binary_int64_labels.
Qed.

Lemma generate_data_ranges_witness :
  exists (res : response) (w1 : world) (new : list dict),
    generate_data mongo_cfg 2 (startup mongo_cfg fresh) = (res, w1)
    /\ store_records mongo_cfg w1 = new
    /\ Forall (fun d => in_ranges d /\ binary_label d) new
    /\ length new = 2%nat.
Proof.
  destruct (generate_data_ranges mongo_cfg (startup mongo_cfg fresh) 2
              (reachable_start mongo_cfg) I)
    as (res & w1 & new & E & Hst & Hall & Hlen).
  exists res, w1, new. split; [exact E|]. split; [exact Hst|].
  split; [exact Hall|]. exact (proj2 (Hlen I)).
Defined.

(** C8, the claim as stated fails: [generate_data] saves through [save_data],
    which truncates the data file and then writes the new document into it
    piece by piece.  Here the file holds two records and one is generated; a
    write that stops after two of its five pieces leaves a file that is
    neither the old document nor the new one, and that [json.load] rejects. *)
Lemma save_data_interrupted_partial :
  exists (g : dict) (w1 : world),
    (generate_data file_cfg 1 two_records).2 = w1
    /\ data_file w1 = Some (json_dump [rec_a; rec_b; g])
    /\ data_file w1 = data_file (dump_upto 5 [rec_a; rec_b; g] two_records)
    /\ data_file (dump_upto 0 [rec_a; rec_b; g] two_records) = Some []
    /\ data_file (dump_upto 2 [rec_a; rec_b; g] two_records) = Some [COpen; CItem rec_a]
    /\ data_file (dump_upto 2 [rec_a; rec_b; g] two_records) <> data_file two_records
    /\ data_file (dump_upto 2 [rec_a; rec_b; g] two_records) <> data_file w1
    /\ json_load [COpen; CItem rec_a] = None.
Proof.
  eexists _, _. split; [vm_compute; reflexivity|].
  split; [vm_compute; reflexivity|].
  split; [vm_compute; reflexivity|].
  split; [reflexivity|]. split; [reflexivity|].
  split; [discriminate|]. split; [discriminate|]. reflexivity.
Qed.

(** C8 (as amended): on the file back end, whenever [generate_data] fails,
    because the classifier raises in the middle of the batch or because the
    data file cannot be parsed, both stores are left as they were: the batch
    is collected in memory and the file is written only after every record
    has been classified.  (The write itself is in place, see above.) *)
Theorem generate_data_failure_keeps_file
    (cfg : config) (count : Z) (w w1 : world) (e : exn) :
  use_mongodb cfg = false ->
  generate_data cfg count w = (HTTPException 500 e, w1) ->
  data_file w1 = data_file w /\ collection w1 = collection w.
Proof.
  intros Hcfg. unfold generate_data, try_except. unfold bind at 1.
  destruct (generate_loop cfg (Z.to_nat count) [] w) as [[e0|out] w0] eqn:E.
  - intros [= _ <-]. apply (generate_loop_file cfg _ Hcfg _ _ _ _ E).
  - destruct (generate_loop_file cfg _ Hcfg _ _ _ _ E) as [[Hf Hc] _].
    rewrite Hcfg. cbn [negb]. unfold bind, get_all_data.
    destruct (data_file w0) as [cs|] eqn:Ef.
    + rewrite Ef. destruct (json_load cs) as [data|].
      * rewrite save_data_eq. cbv [ret]. discriminate.
      * intros [= _ <-]. split; congruence.
    + rewrite dump_file_eq. cbn [data_file set_data_file].
      change (json_load (json_dump [])) with (Some (@nil dict)).
      cbv beta iota. rewrite save_data_eq. cbv [ret]. discriminate.
Qed.

Lemma generate_data_failure_keeps_file_witness :
  exists w1 : world,
    generate_data picky_cfg 3 two_records
      = (HTTPException 500 (ModelError "unsupported machine type"), w1)
    /\ data_file w1 = data_file two_records
    /\ collection w1 = collection two_records.
Proof.
  exists (generate_data picky_cfg 3 two_records).2.
  assert (E : generate_data picky_cfg 3 two_records
              = (HTTPException 500 (ModelError "unsupported machine type"),
                 (generate_data picky_cfg 3 two_records).2))
    by (vm_compute; reflexivity).
  split; [exact E|].
  exact (generate_data_failure_keeps_file picky_cfg 3 two_records _ _ eq_refl E).
Defined.

(** * Further properties of the handlers *)

(** ** GET /data at the edges of [limit] *)

(** X1: on the file back end a negative limit [-k] makes [get_data] skip the
    [k] oldest records and answer with all the others (with none when the
    store holds at most [k]); the store is not modified. *)
Theorem get_data_file_negative_limit
    (cfg : config) (w : world) (recs : list dict) (limit : Z) :
  use_mongodb cfg = false ->
  data_file w = Some (json_dump recs) ->
  limit < 0 ->
  let data := drop (Z.to_nat (- limit)) recs in
  get_data cfg limit w =
    (OK [ ("data", VList (map VDict data));
          ("count", VInt (Z.of_nat (length data))) ], w)
  /\ length data = (length recs - Z.to_nat (- limit))%nat.
Proof.
  intros Hcfg Hfile Hneg data. subst data.
  rewrite (get_data_file cfg w recs limit Hcfg Hfile). cbv zeta.
  destruct (Z.gtb_spec (Z.of_nat (length recs)) limit) as [_|Hle]; [|lia].
  assert (E : slice_from (- limit) recs = drop (Z.to_nat (- limit)) recs).
  { unfold slice_from. destruct (Z.ltb_spec (- limit) 0) as [|_]; [lia|].
    destruct (Z.le_ge_cases (- limit) (Z.of_nat (length recs))) as [H|H].
    - now rewrite Z.min_l by exact H.
    - rewrite Z.min_r by exact H. rewrite Nat2Z.id.
      rewrite drop_all. symmetry. apply drop_ge. lia. }
  rewrite E. split; [reflexivity|]. apply length_drop.
Qed.

Lemma get_data_file_negative_limit_witness :
  get_data file_cfg (-1) two_records =
    (OK [ ("data", VList [VDict rec_b]); ("count", VInt 1) ], two_records).
Proof.
  apply (get_data_file_negative_limit file_cfg two_records [rec_a; rec_b] (-1));
    [reflexivity | reflexivity | lia].
Defined.

(** X2: in a reachable world, on either back end, [get_data] with limit 0 or
    with a limit of at least the store size (below [2^63] on MongoDB, where
    the driver must encode it) answers with the whole store in stored order;
    so does the default limit of 10000 while the store holds at most 10000
    records. *)
Theorem get_data_whole_store (cfg : config) (w : world) (limit : Z) :
  reachable cfg w ->
  limit = 0 \/ Z.of_nat (length (store_records cfg w)) <= limit ->
  (use_mongodb cfg = true -> limit < 2 ^ 63) ->
  get_data cfg limit w =
    (OK [ ("data", VList (map VDict (store_records cfg w)));
          ("count", VInt (Z.of_nat (length (store_records cfg w)))) ], w).
Proof.
  intros Hreach Hlim Hbound. destruct (reachable_invariant cfg w Hreach) as [Hcan _].
  destruct (use_mongodb cfg) eqn:Hcfg.
  - rewrite (get_data_mongo cfg w limit Hcfg). cbv zeta.
    specialize (Hbound eq_refl).
    rewrite bson_int_range by lia.
    destruct (Z.eqb_spec limit 0) as [_|Hne]; [reflexivity|].
    destruct Hlim as [->|Hge]; [contradiction|].
    destruct (Z.ltb_spec limit 0) as [Hneg|_]; [lia|].
    rewrite take_ge; [reflexivity|]. lia.
  - destruct (Hcan Hcfg) as [recs Hrecs].
    rewrite (store_records_file cfg w recs Hcfg Hrecs) in *.
    rewrite (get_data_file cfg w recs limit Hcfg Hrecs). cbv zeta.
    destruct (Z.gtb_spec (Z.of_nat (length recs)) limit) as [Hgt|_]; [|reflexivity].
    destruct Hlim as [->|Hge]; [|lia].
    now rewrite slice_from_zero.
Qed.

Lemma get_data_whole_store_witness :
  let w := (handle mongo_cfg (Predict sample) (startup mongo_cfg fresh)).2 in
  get_data mongo_cfg 10000 w =
    (OK [ ("data", VList (map VDict (store_records mongo_cfg w)));
          ("count", VInt (Z.of_nat (length (store_records mongo_cfg w)))) ], w)
  /\ length (store_records mongo_cfg w) = 1%nat.
Proof.
  intros w. split; [|reflexivity].
  apply (get_data_whole_store mongo_cfg w 10000
           (reachable_step mongo_cfg (Predict sample) _ (reachable_start mongo_cfg))).
  - right. vm_compute. discriminate.
  - intros _. lia.
Defined.

(** X14: in a reachable world, on either back end, [get_data] with a limit of
    at least one (below [2^63] on MongoDB) answers with exactly
    [min limit size] records, where [size] is the number of stored records,
    and reports that number as [count]; the world is left as it was. *)
Theorem get_data_count_is_min (cfg : config) (w : world) (limit : Z) :
  reachable cfg w ->
  1 <= limit ->
  (use_mongodb cfg = true -> limit < 2 ^ 63) ->
  exists data : list dict,
    get_data cfg limit w =
      (OK [ ("data", VList (map VDict data));
            ("count", VInt (Z.min limit (Z.of_nat (length (store_records cfg w))))) ], w)
    /\ Z.of_nat (length data) = Z.min limit (Z.of_nat (length (store_records cfg w)))
    /\ Forall (fun d => In d (store_records cfg w)) data.
Proof.
  intros Hreach Hlim Hbound. destruct (reachable_invariant cfg w Hreach) as [Hcan _].
  destruct (use_mongodb cfg) eqn:Hcfg.
  - rewrite (get_data_mongo cfg w limit Hcfg). cbv zeta.
    specialize (Hbound eq_refl).
    rewrite bson_int_range by lia.
    destruct (Z.eqb_spec limit 0) as [->|_]; [lia|].
    destruct (Z.ltb_spec limit 0) as [Hneg|_]; [lia|].
    set (docs := store_records cfg w).
    assert (Hlen : Z.of_nat (length (take (Z.to_nat limit) docs))
                   = Z.min limit (Z.of_nat (length docs))).
    { rewrite length_take. lia. }
    exists (take (Z.to_nat limit) docs). rewrite Hlen.
    split; [reflexivity|]. split; [reflexivity|].
    apply Forall_forall. intros d Hd. apply list_elem_of_In in Hd.
    rewrite <- (take_drop (Z.to_nat limit) docs).
    apply in_or_app. now left.
  - destruct (Hcan Hcfg) as [recs Hrecs].
    rewrite (store_records_file cfg w recs Hcfg Hrecs).
    pose proof (get_data_file cfg w recs limit Hcfg Hrecs) as E. cbv zeta in E.
    set (data := if Z.of_nat (length recs) >? limit
                 then slice_from (- limit) recs else recs) in E.
    assert (Hdata : data = drop (length recs - Z.to_nat limit) recs).
    { subst data. destruct (Z.gtb_spec (Z.of_nat (length recs)) limit) as [Hgt|Hle].
      - apply slice_from_tail; lia.
      - replace (length recs - Z.to_nat limit)%nat with 0%nat by lia.
        now rewrite drop_0. }
    assert (Hlen : Z.of_nat (length data) = Z.min limit (Z.of_nat (length recs))).
    { rewrite Hdata, length_drop. lia. }
    exists data. rewrite <- Hlen. split; [exact E|]. split; [reflexivity|].
    rewrite Hdata. apply Forall_forall. intros d Hd. apply list_elem_of_In in Hd.
    rewrite <- (take_drop (length recs - Z.to_nat limit) recs).
    apply in_or_app. now right.
Qed.

Lemma get_data_count_is_min_witness :
  let w := (handle mongo_cfg (GenerateData 3) (startup mongo_cfg fresh)).2 in
  exists data : list dict,
    get_data mongo_cfg 2 w =
      (OK [ ("data", VList (map VDict data)); ("count", VInt 2) ], w)
    /\ Z.of_nat (length data) = 2.
Proof.
  intros w.
  destruct (get_data_count_is_min mongo_cfg w 2
              (reachable_step mongo_cfg (GenerateData 3) _ (reachable_start mongo_cfg))
              ltac:(lia) ltac:(intros _; lia))
    as (data & E & Hlen & _).
  assert (Hsize : Z.min 2 (Z.of_nat (length (store_records mongo_cfg w))) = 2)
    by (vm_compute; reflexivity).
  rewrite Hsize in E, Hlen.
  exists data. split; [exact E|exact Hlen].
Defined.

(** ** How requests compose *)

(** X3: in a reachable world, on either back end, a [get_data] that follows a
    [clear_data] answers with no records and count 0, for every limit (below
    [2^63] in magnitude on MongoDB, where the driver must encode it). *)
Theorem clear_then_get_data_empty (cfg : config) (w : world) (limit : Z) :
  reachable cfg w ->
  (use_mongodb cfg = true -> Z.abs limit < 2 ^ 63) ->
  exists w1 : world,
    (clear_data cfg w).2 = w1
    /\ get_data cfg limit w1 = (OK [ ("data", VList []); ("count", VInt 0) ], w1).
Proof.
  intros Hreach Hbound. destruct (reachable_invariant cfg w Hreach) as [Hcan _].
  destruct (clear_data_effect cfg w Hcan) as (w1 & E & Hcan1 & Hempty).
  exists w1. rewrite E. split; [reflexivity|].
  destruct (get_data_effect cfg limit w1 Hcan1 (limit_accepted_small cfg limit Hbound))
    as (data & k & Eg & Hdata).
  rewrite Hempty in Hdata.
  assert (data = []) as ->.
  { destruct Hdata as [-> | ->]; [apply drop_nil | apply take_nil]. }
  exact Eg.
Qed.

Lemma clear_then_get_data_empty_witness :
  let w := (handle mongo_cfg (GenerateData 2) (startup mongo_cfg fresh)).2 in
  length (store_records mongo_cfg w) = 2%nat
  /\ exists w1 : world,
       (clear_data mongo_cfg w).2 = w1
       /\ get_data mongo_cfg (-5) w1 = (OK [ ("data", VList []); ("count", VInt 0) ], w1).
Proof.
  intros w. split; [vm_compute; reflexivity|].
  exact (clear_then_get_data_empty mongo_cfg w (-5)
           (reachable_step mongo_cfg (GenerateData 2) _ (reachable_start mongo_cfg))
           ltac:(intros _; cbn; lia)).
Defined.



(** ** When requests fail, and when they cannot *)



Lemma get_all_data_spec (w : world) :
  get_all_data w =
    match data_file w with
    | None => (inr [], set_data_file (Some (json_dump [])) w)
    | Some cs =>
        (match json_load cs with
         | Some data => inr data
         | None => inl JSONDecodeError
         end, w)
    end.
Proof.
  unfold get_all_data. destruct (data_file w) as [cs|] eqn:E.
  - rewrite E. now destruct (json_load cs).
  - rewrite dump_file_eq. reflexivity.
Qed.

Lemma get_all_data_collection (w w' : world) res :
  get_all_data w = (res, w') -> collection w' = collection w.
Proof.
  rewrite get_all_data_spec. destruct (data_file w); intros [= _ <-]; reflexivity.
Qed.



Lemma generate_loop_mongo_fail (cfg : config) (n : nat) :
  use_mongodb cfg = true ->
  forall (acc : list dict) (w w' : world) (e : exn),
    generate_loop cfg n acc w = (inl e, w') ->
    exists new : list dict,
      map (dict_del "_id") (collection w')
      = map (dict_del "_id") (collection w) ++ new
      /\ (length new < n)%nat
      /\ Forall in_ranges new.
Proof.
  intros Hcfg. induction n as [|n IH]; intros acc w w' e; cbn [generate_loop].
  - cbv [ret]. discriminate.
  - unfold bind at 1. destruct (generate_one cfg w) as [[e1|d] w1] eqn:E1.
    + intros [= _ <-]. destruct (generate_one_spec cfg w w1 _ E1) as [[_ Hc] _].
      exists []. rewrite app_nil_r, Hc. split; [reflexivity|].
      split; [cbn; lia|constructor].
    + destruct (generate_one_spec cfg w w1 _ E1) as [[_ Hc] Hd].
      destruct (Hd d eq_refl) as [Hr _].
      pose proof (in_ranges_no_id d Hr) as Hid.
      rewrite Hcfg. unfold bind at 1 2. rewrite (insert_one_fresh d w1 Hid).
      destruct (bson_encodable d).
      * cbv [ret]. intros E2.
        destruct (IH _ _ _ _ E2) as (new & Hnew & Hlen & Hall).
        cbn [collection] in Hnew.
        exists (d :: new). split; [|split].
        -- rewrite Hnew, map_app, Hc, <- app_assoc. f_equal. cbn [map app].
           now rewrite (dict_del_snoc _ _ _ Hid).
        -- cbn [length]. lia.
        -- now constructor.
      * intros [= _ <-]. cbn [collection].
        exists []. rewrite app_nil_r, Hc. split; [reflexivity|].
        split; [cbn; lia|constructor].
Qed.

(** X7: on the MongoDB back end a [generate_data] that answers 500 has kept
    what it inserted before the failure: the collection has grown by the
    records classified and inserted so far, fewer than [count] of them, each
    within the sampling ranges; the data file is untouched. *)
Theorem generate_data_mongo_partial_batch
    (cfg : config) (count : Z) (w w1 : world) (e : exn) :
  use_mongodb cfg = true ->
  generate_data cfg count w = (HTTPException 500 e, w1) ->
  exists new : list dict,
    store_records cfg w1 = store_records cfg w ++ new
    /\ (length new < Z.to_nat count)%nat
    /\ Forall in_ranges new
    /\ data_file w1 = data_file w.
Proof.
  intros Hcfg. unfold generate_data, try_except. unfold bind at 1.
  destruct (generate_loop cfg (Z.to_nat count) [] w) as [[e0|out] w0] eqn:E.
  - intros [= _ <-].
    destruct (generate_loop_mongo_fail cfg _ Hcfg _ _ _ _ E) as (new & Hnew & Hlen & Hall).
    destruct (generate_loop_mongo cfg _ Hcfg _ _ _ _ E) as (Hf & _).
    exists new. rewrite !store_records_mongo by exact Hcfg. auto.
  - rewrite Hcfg. cbn [negb]. unfold bind. cbv [ret]. discriminate.
Qed.

Lemma generate_data_mongo_partial_batch_witness :
  exists (w1 : world) (new : list dict),
    generate_data picky_mongo_cfg 3 fresh
      = (HTTPException 500 (ModelError "unsupported machine type"), w1)
    /\ store_records picky_mongo_cfg w1 = new
    /\ length (store_records picky_mongo_cfg w1) = 1%nat
    /\ (length new < 3)%nat.
Proof.
  assert (E : generate_data picky_mongo_cfg 3 fresh
              = (HTTPException 500 (ModelError "unsupported machine type"),
                 (generate_data picky_mongo_cfg 3 fresh).2))
    by (vm_compute; reflexivity).
  destruct (generate_data_mongo_partial_batch picky_mongo_cfg 3 fresh _ _ eq_refl E)
    as (new & Hst & Hlen & _).
  exists (generate_data picky_mongo_cfg 3 fresh).2, new.
  split; [exact E|]. split; [exact Hst|]. split; [vm_compute; reflexivity|exact Hlen].
Defined.

(** ** A damaged or missing data file *)

Lemma handle_unparsable (cfg : config) (w : world) (cs : list chunk) (r : request) :
  use_mongodb cfg = false ->
  data_file w = Some cs -> json_load cs = None ->
  exists (e : exn) (w' : world),
    handle cfg r w = (HTTPException 500 e, w') /\ data_file w' = Some cs.
Proof.
  intros Hcfg Hf Hbad.
  assert (G : forall w0, data_file w0 = Some cs ->
                get_all_data w0 = (inl JSONDecodeError, w0)).
  { intros w0 H0. rewrite get_all_data_spec, H0, Hbad. reflexivity. }
  destruct r as [data|count|limit|]; cbn [handle].
  - unfold predict, try_except.
    set (df := [("Type", VInt (Type_ data)); _; _; _; _; _]).
    unfold bind at 1.
    destruct (model_predict cfg df w) as [[e0|p] w0] eqn:E;
      pose proof (model_predict_stores cfg df w w0 _ E) as [Hf0 _].
    + eexists _, _. split; [reflexivity|congruence].
    + rewrite Hcfg. unfold bind. rewrite (G w0) by congruence.
      eexists _, _. split; [reflexivity|congruence].
  - unfold generate_data, try_except. unfold bind at 1.
    destruct (generate_loop cfg (Z.to_nat count) [] w) as [[e0|out] w0] eqn:E;
      destruct (generate_loop_file cfg _ Hcfg _ _ _ _ E) as [[Hf0 _] _].
    + eexists _, _. split; [reflexivity|congruence].
    + rewrite Hcfg. cbn [negb]. unfold bind. rewrite (G w0) by congruence.
      eexists _, _. split; [reflexivity|congruence].
  - unfold get_data, try_except, bind. rewrite Hcfg, (G w Hf).
    eexists _, _. split; [reflexivity|exact Hf].
  - unfold clear_data, try_except, bind. rewrite Hcfg, (G w Hf).
    eexists _, _. split; [reflexivity|exact Hf].
Qed.

(** X8: on the file back end, once the data file holds something [json.load]
    rejects, every request answers 500 and leaves the file as it is, whatever
    the sequence of requests: [clear_data] too reads the file before it
    writes, so the server cannot repair the file. *)
Theorem unparsable_file_is_permanent
    (cfg : config) (cs : list chunk) (rs : list request) (w : world) :
  use_mongodb cfg = false ->
  data_file w = Some cs -> json_load cs = None ->
  length (serve cfg rs w).1 = length rs
  /\ Forall (fun res => exists e, res = HTTPException 500 e) (serve cfg rs w).1
  /\ data_file (serve cfg rs w).2 = Some cs.
Proof.
  intros Hcfg. revert w. induction rs as [|r rs IH]; intros w Hf Hbad; cbn [serve].
  - split; [reflexivity|]. split; [constructor|exact Hf].
  - destruct (handle_unparsable cfg w cs r Hcfg Hf Hbad) as (e & w1 & -> & Hf1).
    destruct (IH w1 Hf1 Hbad) as (Hlen & Hall & Hfile).
    destruct (serve cfg rs w1) as [out w2]. cbn [fst snd length] in *.
    split; [now rewrite Hlen|]. split; [|exact Hfile].
    constructor; [eauto|exact Hall].
Qed.

Lemma unparsable_file_is_permanent_witness :
  (serve file_cfg [ClearData; GetData 10; Predict sample] torn_file).1
  = [ HTTPException 500 JSONDecodeError; HTTPException 500 JSONDecodeError;
      HTTPException 500 JSONDecodeError ]
  /\ data_file (serve file_cfg [ClearData; GetData 10; Predict sample] torn_file).2
     = Some [COpen; CItem rec_a].
Proof.
  split; [vm_compute; reflexivity|].
  apply (unparsable_file_is_permanent file_cfg [COpen; CItem rec_a]
           [ClearData; GetData 10; Predict sample] torn_file);
    reflexivity.
Defined.

(** X9: on the file back end, when the data file is missing, [get_data] (for
    every limit) and [clear_data] raise nothing: they create the file holding
    the empty array and answer with no records, respectively 0 deleted. *)
Theorem missing_file_is_recreated (cfg : config) (w : world) :
  use_mongodb cfg = false ->
  data_file w = None ->
  (forall limit,
      get_data cfg limit w =
        (OK [ ("data", VList []); ("count", VInt 0) ],
         set_data_file (Some (json_dump [])) w))
  /\ clear_data cfg w =
       (OK [ ("message", VStr "Deleted 0 data points") ],
        set_data_file (Some (json_dump [])) w).
Proof.
  intros Hcfg Hf. split.
  - intros limit. unfold get_data, try_except, bind.
    rewrite Hcfg, get_all_data_spec, Hf. cbv [ret]. cbn [length].
    destruct (Z.of_nat 0 >? limit); [|reflexivity].
    unfold slice_from. now rewrite drop_nil.
  - unfold clear_data, try_except, bind.
    rewrite Hcfg, get_all_data_spec, Hf, save_data_eq. reflexivity.
Qed.

Lemma missing_file_is_recreated_witness :
  get_data file_cfg (-2) no_file =
    (OK [ ("data", VList []); ("count", VInt 0) ],
     set_data_file (Some [COpen; CClose]) no_file)
  /\ clear_data file_cfg no_file =
       (OK [ ("message", VStr "Deleted 0 data points") ],
        set_data_file (Some [COpen; CClose]) no_file).
Proof.
  destruct (missing_file_is_recreated file_cfg no_file eq_refl eq_refl) as [G C].
  split; [exact (G (-2))|exact C].
Defined.


Lemma insert_one_data_file (d : dict) (w : world) :
  data_file (insert_one d w).2 = data_file w.
Proof. unfold insert_one. destruct (bson_encodable _); reflexivity. Qed.

(** X11: no handler touches the store of the back end that is not selected:
    with MongoDB selected the data file is never created or written, with the
    file selected the collection is never written. *)
Theorem inactive_store_untouched (cfg : config) (r : request) (w : world) :
  if use_mongodb cfg
  then data_file (handle cfg r w).2 = data_file w
  else collection (handle cfg r w).2 = collection w.
Proof.
  destruct (use_mongodb cfg) eqn:Hcfg.
  - destruct r as [data|count|limit|]; cbn [handle].
    + unfold predict, try_except.
      set (df := [("Type", VInt (Type_ data)); _; _; _; _; _]).
      unfold bind at 1.
      destruct (model_predict cfg df w) as [[e0|p] w0] eqn:E;
        pose proof (model_predict_stores cfg df w w0 _ E) as [Hf0 _];
        [exact Hf0|].
      rewrite Hcfg. unfold bind.
      match goal with
      | |- context [insert_one ?d w0] =>
          pose proof (insert_one_data_file d w0) as Hi;
          destruct (insert_one d w0) as [[e1|u] w2]
      end; cbn [snd] in Hi; cbn; congruence.
    + unfold generate_data, try_except. unfold bind at 1.
      destruct (generate_loop cfg (Z.to_nat count) [] w) as [[e0|out] w0] eqn:E;
        destruct (generate_loop_mongo cfg _ Hcfg _ _ _ _ E) as [Hf0 _];
        [exact Hf0|].
      rewrite Hcfg. cbn [negb]. unfold bind. cbv [ret]. exact Hf0.
    + rewrite (get_data_mongo cfg w limit Hcfg). reflexivity.
    + unfold clear_data, try_except, bind. rewrite Hcfg. reflexivity.
  - destruct r as [data|count|limit|]; cbn [handle].
    + unfold predict, try_except.
      set (df := [("Type", VInt (Type_ data)); _; _; _; _; _]).
      unfold bind at 1.
      destruct (model_predict cfg df w) as [[e0|p] w0] eqn:E;
        pose proof (model_predict_stores cfg df w w0 _ E) as [_ Hc0];
        [exact Hc0|].
      rewrite Hcfg. unfold bind.
      destruct (get_all_data w0) as [[e1|all] w1] eqn:E1;
        pose proof (get_all_data_collection w0 w1 _ E1) as Hc1;
        [cbn; congruence|].
      rewrite save_data_eq. cbv [ret]. cbn. congruence.
    + unfold generate_data, try_except. unfold bind at 1.
      destruct (generate_loop cfg (Z.to_nat count) [] w) as [[e0|out] w0] eqn:E;
        destruct (generate_loop_file cfg _ Hcfg _ _ _ _ E) as [[_ Hc0] _];
        [exact Hc0|].
      rewrite Hcfg. cbn [negb]. unfold bind.
      destruct (get_all_data w0) as [[e1|all] w1] eqn:E1;
        pose proof (get_all_data_collection w0 w1 _ E1) as Hc1;
        [cbn; congruence|].
      rewrite save_data_eq. cbv [ret]. cbn. congruence.
    + unfold get_data, try_except, bind. rewrite Hcfg.
      destruct (get_all_data w) as [[e1|all] w1] eqn:E1;
        pose proof (get_all_data_collection w w1 _ E1) as Hc1; exact Hc1.
    + unfold clear_data, try_except, bind. rewrite Hcfg.
      destruct (get_all_data w) as [[e1|all] w1] eqn:E1;
        pose proof (get_all_data_collection w w1 _ E1) as Hc1;
        [exact Hc1|].
      rewrite save_data_eq. cbv [ret]. cbn. exact Hc1.
Qed.

(** ** The dashboard and the set-up script *)

Lemma predict_ok_body (cfg : config) (data : MachineData) (w w1 : world) (body : dict) :
  predict cfg data w = (OK body, w1) -> exists p, body = predict_body p.
Proof.
  unfold predict, try_except.
  set (df := [("Type", VInt (Type_ data)); _; _; _; _; _]).
  unfold bind at 1.
  destruct (model_predict cfg df w) as [[e0|p] w0]; [discriminate|].
  unfold bind at 1.
  match goal with |- context [match ?m w0 with _ => _ end] => destruct (m w0) as [[e1|u] w2] end;
    [discriminate|].
  cbv [ret]. intros [= <- _]. exists p. reflexivity.
Qed.

(** X12: for every 200 answer of [predict], the prediction form of the
    dashboard prints "Yes" after "Machine Failure:" exactly when the [failure]
    flag of the answer is false, and "No" exactly when it is true; for a
    label in {0, 1} the text "Yes" goes with the style class [failure-0] and
    "No" with [failure-1]. *)
Theorem dashboard_failure_text_opposes_flag
    (cfg : config) (data : MachineData) (w w1 : world) (body : dict) :
  predict cfg data w = (OK body, w1) ->
  exists (p : Z) (flag : bool),
    dict_get "prediction" body = Some (VInt p)
    /\ dict_get "failure" body = Some (VBool flag)
    /\ (failure_text p = "Yes" <-> flag = false)
    /\ (failure_text p = "No" <-> flag = true)
    /\ (p = 0 \/ p = 1 ->
          (failure_text p, color_class p) = ("Yes", "failure-0")
          \/ (failure_text p, color_class p) = ("No", "failure-1")).
Proof.
  intros E. destruct (predict_ok_body cfg data w w1 body E) as [p ->].
  exists p, (negb (p =? 0)). split; [reflexivity|]. split; [reflexivity|].
  unfold failure_text, color_class.
  split; [|split].
  - destruct (p =? 0); cbn; split; congruence.
  - destruct (p =? 0); cbn; split; congruence.
  - intros [-> | ->]; [left|right]; reflexivity.
Qed.

Lemma dashboard_failure_text_opposes_flag_witness :
  let w := (handle file_cfg (Predict sample) (startup file_cfg fresh)).2 in
  exists (p : Z) (flag : bool) (body : dict),
    (predict file_cfg sample w).1 = OK body
    /\ dict_get "prediction" body = Some (VInt p)
    /\ dict_get "failure" body = Some (VBool flag)
    /\ (failure_text p = "No" <-> flag = true).
Proof.
  intros w.
  assert (E : predict file_cfg sample w
              = (OK [ ("prediction", VInt 1); ("failure", VBool true) ],
                 (predict file_cfg sample w).2))
    by (vm_compute; reflexivity).
  destruct (dashboard_failure_text_opposes_flag file_cfg sample w _ _ E)
    as (p & flag & Hp & Hf & _ & Hno & _).
  exists p, flag, [ ("prediction", VInt 1); ("failure", VBool true) ].
  split; [now rewrite E|]. split; [exact Hp|]. split; [exact Hf|exact Hno].
Defined.

Lemma delete_one_last (n : N) (docs : list dict) (d : dict) :
  Forall (fun d' => has_oid n d' = false) docs -> has_oid n d = true ->
  delete_one n (docs ++ [d]) = docs.
Proof.
  intros Hall Hd. induction Hall as [|d' docs Hd' _ IH]; cbn [app delete_one].
  - now rewrite Hd.
  - now rewrite Hd', IH.
Qed.

Lemma model_predict_next_oid (cfg : config) (row : dict) (w w' : world) res :
  model_predict cfg row w = (res, w') -> next_oid w' = next_oid w.
Proof.
  unfold model_predict. destruct (model cfg) as [|f].
  - cbv [bind np_draw ret]. intros [= _ <-]. reflexivity.
  - destruct (f row); cbv [raise ret]; intros [= _ <-]; reflexivity.
Qed.

Lemma generate_one_next_oid (cfg : config) (w w' : world) res :
  generate_one cfg w = (res, w') -> next_oid w' = next_oid w.
Proof.
  cbv beta iota zeta delta
    [generate_one choice uniform bind py_draw ret
     py_pos np_pos data_file collection next_oid].
  match goal with
  | |- context [model_predict cfg ?row ?w0] =>
      destruct (model_predict cfg row w0) as [[e|p] w1] eqn:E;
      apply model_predict_next_oid in E
  end; intros [= _ <-]; exact E.
Qed.

Lemma get_all_data_next_oid (w w' : world) res :
  get_all_data w = (res, w') -> next_oid w' = next_oid w.
Proof.
  rewrite get_all_data_spec. destruct (data_file w); intros [= _ <-]; reflexivity.
Qed.

(** Every stored document carries an ObjectId handed out earlier. *)
Lemma ids_below_insert (w : world) (d : dict) :
  ids_below w -> dict_get "_id" d = None -> ids_below (insert_one d w).2.
Proof.
  intros Hall Hd. unfold ids_below, insert_one. rewrite Hd.
  assert (Hold : Forall (fun d' => exists m, dict_get "_id" d' = Some (VOid m)
                                   /\ (m < N.succ (next_oid w))%N) (collection w)).
  { eapply Forall_impl; [exact Hall|]. intros d' (m & Hm & Hlt).
    exists m. split; [exact Hm|lia]. }
  destruct (bson_encodable _); cbn [snd collection next_oid]; [|exact Hold].
  apply Forall_app. split; [exact Hold|].
  constructor; [|constructor]. exists (next_oid w). split; [apply dict_get_set|lia].
Qed.

Lemma ids_below_same (w w' : world) :
  collection w' = collection w -> next_oid w' = next_oid w ->
  ids_below w -> ids_below w'.
Proof. unfold ids_below. intros -> ->. auto. Qed.

Lemma generate_loop_ids_below (cfg : config) (n : nat) :
  forall (acc : list dict) (w w' : world) res,
    generate_loop cfg n acc w = (res, w') -> ids_below w -> ids_below w'.
Proof.
  induction n as [|n IH]; intros acc w w' res; cbn [generate_loop].
  - cbv [ret]. intros [= _ <-]. auto.
  - unfold bind at 1. destruct (generate_one cfg w) as [[e|d] w1] eqn:E1;
      pose proof (generate_one_next_oid cfg w w1 _ E1) as Ho;
      destruct (generate_one_spec cfg w w1 _ E1) as [[_ Hc] Hd].
    + intros [= _ <-]. now apply ids_below_same.
    + intros E2 Hw. assert (Hw1 : ids_below w1) by now apply (ids_below_same w).
      destruct (Hd d eq_refl) as [(? & ? & ? & ? & ? & ? & ? & -> & _) _].
      destruct (use_mongodb cfg); unfold bind at 1 in E2; cbv [ret] in E2.
      * unfold bind at 1 in E2.
        match type of E2 with
        | context [insert_one ?doc w1] =>
            pose proof (ids_below_insert w1 doc Hw1 eq_refl) as Hi;
            destruct (insert_one doc w1) as [[e2|u] w2] eqn:Ei
        end; cbn [snd] in Hi.
        -- injection E2 as _ <-. exact Hi.
        -- eapply IH; eassumption.
      * eapply IH; eassumption.
Qed.

Lemma reachable_ids_below (cfg : config) (w : world) : reachable cfg w -> ids_below w.
Proof.
  induction 1 as [|r w Hw IH].
  - unfold startup. destruct (use_mongodb cfg); [constructor|].
    cbn [data_file fresh]. rewrite dump_file_eq. constructor.
  - destruct r as [data|count|limit|]; cbn [handle].
    + unfold predict, try_except.
      set (df := [("Type", VInt (Type_ data)); _; _; _; _; _]).
      unfold bind at 1.
      destruct (model_predict cfg df w) as [[e0|p] w0] eqn:E;
        pose proof (model_predict_stores cfg df w w0 _ E) as [_ Hc0];
        pose proof (model_predict_next_oid cfg df w w0 _ E) as Ho0;
        assert (H0 : ids_below w0) by now apply (ids_below_same w).
      * exact H0.
      * subst df. rewrite (iloc0_stored data p).
        destruct (use_mongodb cfg); unfold bind.
        -- pose proof (ids_below_insert w0 (stored_record data p) H0 eq_refl) as Hi.
           destruct (insert_one (stored_record data p) w0) as [[e2|u] w2]; exact Hi.
        -- destruct (get_all_data w0) as [[e1|all] w1] eqn:E1;
             pose proof (get_all_data_collection w0 w1 _ E1) as Hc1;
             pose proof (get_all_data_next_oid w0 w1 _ E1) as Ho1;
             assert (H1 : ids_below w1) by now apply (ids_below_same w0).
           ++ exact H1.
           ++ rewrite save_data_eq. cbv [ret]. cbn [snd]. exact H1.
    + unfold generate_data, try_except. unfold bind at 1.
      destruct (generate_loop cfg (Z.to_nat count) [] w) as [[e0|out] w0] eqn:E;
        pose proof (generate_loop_ids_below cfg _ _ _ _ _ E IH) as H0.
      * exact H0.
      * destruct (use_mongodb cfg); cbn [negb]; unfold bind; cbv [ret]; [exact H0|].
        destruct (get_all_data w0) as [[e1|all] w1] eqn:E1;
          pose proof (get_all_data_collection w0 w1 _ E1) as Hc1;
          pose proof (get_all_data_next_oid w0 w1 _ E1) as Ho1;
          assert (H1 : ids_below w1) by now apply (ids_below_same w0).
        -- exact H1.
        -- rewrite save_data_eq. cbn [snd]. exact H1.
    + unfold get_data, try_except, bind.
      destruct (use_mongodb cfg) eqn:Hcfg.
      { fold (bind (find_limit cfg limit)
                (fun data => ret [ ("data", VList (map VDict data));
                                   ("count", VInt (Z.of_nat (length data))) ]) w).
        cbv [bind find_limit ret].
        destruct (negb _); [exact IH|]. destruct (limit =? 0); [exact IH|].
        destruct (limit <? 0); exact IH. }
      destruct (get_all_data w) as [[e1|all] w1] eqn:E1;
        pose proof (get_all_data_collection w w1 _ E1) as Hc1;
        pose proof (get_all_data_next_oid w w1 _ E1) as Ho1;
        cbn [snd]; now apply (ids_below_same w).
    + unfold clear_data, try_except, bind.
      destruct (use_mongodb cfg); [cbv [delete_many ret]; constructor|].
      destruct (get_all_data w) as [[e1|all] w1] eqn:E1;
        pose proof (get_all_data_collection w w1 _ E1) as Hc1;
        pose proof (get_all_data_next_oid w w1 _ E1) as Ho1;
        assert (H1 : ids_below w1) by now apply (ids_below_same w).
      * exact H1.
      * rewrite save_data_eq. cbn [snd]. exact H1.
Qed.

Lemma ids_below_fresh (w : world) :
  ids_below w -> Forall (fun d => has_oid (next_oid w) d = false) (collection w).
Proof.
  unfold ids_below. intros H. eapply Forall_impl; [exact H|].
  intros d (m & Hm & Hlt). unfold has_oid. rewrite Hm.
  apply N.eqb_neq. lia.
Qed.

(** X13: [check_mongodb_connection] returns [False] and changes nothing when
    the server cannot be reached.  When it can, in any world the server has
    reached, the check returns [True] and leaves the collection exactly as it
    found it: the test document it inserts is the one it deletes. *)
Theorem check_mongodb_connection_leaves_collection
    (cfg : config) (now : Q) (w : world) :
  reachable cfg w ->
  check_mongodb_connection false now w = (false, w)
  /\ exists w1 : world,
       check_mongodb_connection true now w = (true, w1)
       /\ collection w1 = collection w
       /\ data_file w1 = data_file w.
Proof.
  intros Hreach. split; [reflexivity|].
  pose proof (ids_below_fresh w (reachable_ids_below cfg w Hreach)) as Hfresh.
  eexists. split; [reflexivity|]. split; [|reflexivity].
  cbn [insert_one snd collection set_collection dict_get String.eqb Ascii.eqb Bool.eqb dict_set].
  apply delete_one_last; [exact Hfresh|].
  unfold has_oid. cbn. apply N.eqb_refl.
Qed.

Lemma check_mongodb_connection_leaves_collection_witness :
  let w := (handle mongo_cfg (GenerateData 2) (startup mongo_cfg fresh)).2 in
  length (collection w) = 2%nat
  /\ exists w1 : world,
       check_mongodb_connection true 17 w = (true, w1)
       /\ collection w1 = collection w.
Proof.
  intros w. split; [vm_compute; reflexivity|].
  destruct (check_mongodb_connection_leaves_collection mongo_cfg 17 w
              (reachable_step mongo_cfg (GenerateData 2) _ (reachable_start mongo_cfg)))
    as (_ & w1 & E & Hc & _).
  exists w1. split; [exact E|exact Hc].
Defined.
